(** * Verification of [bibtexparser.library.Library]

    The container of parsed BibTeX blocks: an ordered list of blocks and two
    dictionaries (entries by key, strings by key), mutated by [add], [remove]
    and [replace], and transformed by [apply_middleware].

    The Python object is modelled as a record that is threaded through every
    method; a method is a function from the state before the call to the
    state after it together with the value returned or the exception raised.
    An exception does not undo the mutations made before it was raised, so
    the state after a raising call is part of the model. *)

From stdpp Require Import gmap strings list fin_maps.

Local Open Scope string_scope.
Local Open Scope list_scope.

(** ** bibtexparser.model *)

Module model.

(** Modelled from the spec: the block classes of [bibtexparser.model], which
    [library.py] imports.  The variants are the seven the spec lists; every
    block carries [start_line] (unset when synthesised) and [raw]; [Entry] and
    [String] carry a [key]; the remaining payload is opaque to the library.
    The classes are taken to be unrelated by inheritance (a closed tagged
    variant), so [isinstance] is a test on the constructor.  The library
    tests blocks against [Entry], [String], [DuplicateKeyBlock] and the class
    of another block only; what matters below is that [Entry], [String] and
    [DuplicateKeyBlock] are not subclasses of one another. *)
Inductive Block : Type :=
  | Entry (start_line : option Z) (raw : string) (key : string)
          (entry_type : string) (fields : list (string * string))
  | String (start_line : option Z) (raw : string) (key : string)
           (value : string)
  | Preamble (start_line : option Z) (raw : string) (value : string)
  | ExplicitComment (start_line : option Z) (raw : string) (comment : string)
  | ImplicitComment (start_line : option Z) (raw : string) (comment : string)
  | DuplicateKeyBlock (start_line : option Z) (raw : string) (key : string)
                      (previous_block : Block) (duplicate_block : Block)
  | ParsingFailedBlock (start_line : option Z) (raw : string) (error : string).

(** The class of an object, as returned by [type(b)]. *)
Inductive BlockType : Type :=
  | TEntry | TString | TPreamble | TExplicitComment | TImplicitComment
  | TDuplicateKeyBlock | TParsingFailedBlock.

Definition type (b : Block) : BlockType :=
  match b with
  | Entry _ _ _ _ _ => TEntry
  | String _ _ _ _ => TString
  | Preamble _ _ _ => TPreamble
  | ExplicitComment _ _ _ => TExplicitComment
  | ImplicitComment _ _ _ => TImplicitComment
  | DuplicateKeyBlock _ _ _ _ _ => TDuplicateKeyBlock
  | ParsingFailedBlock _ _ _ => TParsingFailedBlock
  end.

Definition BlockType_eqb (s t : BlockType) : bool :=
  match s, t with
  | TEntry, TEntry | TString, TString | TPreamble, TPreamble
  | TExplicitComment, TExplicitComment | TImplicitComment, TImplicitComment
  | TDuplicateKeyBlock, TDuplicateKeyBlock
  | TParsingFailedBlock, TParsingFailedBlock => true
  | _, _ => false
  end.

Definition isinstance (b : Block) (t : BlockType) : bool :=
  BlockType_eqb (type b) t.

(** Attribute access: [b.start_line] and [b.raw] exist on every block,
    [b.key] only on the keyed classes. *)
Definition start_line (b : Block) : option Z :=
  match b with
  | Entry s _ _ _ _ | String s _ _ _ | Preamble s _ _
  | ExplicitComment s _ _ | ImplicitComment s _ _
  | DuplicateKeyBlock s _ _ _ _ | ParsingFailedBlock s _ _ => s
  end.

Definition raw (b : Block) : string :=
  match b with
  | Entry _ r _ _ _ | String _ r _ _ | Preamble _ r _
  | ExplicitComment _ r _ | ImplicitComment _ r _
  | DuplicateKeyBlock _ r _ _ _ | ParsingFailedBlock _ r _ => r
  end.

Definition key (b : Block) : option string :=
  match b with
  | Entry _ _ k _ _ | String _ _ k _ | DuplicateKeyBlock _ _ k _ _ => Some k
  | _ => None
  end.

(** Blocks are compared as values: [list.index] and [list.remove] find the
    first element equal to their argument. *)
#[global] Instance Block_eq_decision : EqDecision Block.
Proof. intros a b. unfold Decision. decide equality; solve_decision. Defined.

End model.

(** ** Python values the library code relies on *)

(** The exceptions raised by the library and by the built-in operations it
    calls.  [RecursionError] is what the interpreter raises when the call
    stack is exhausted. *)
Inductive exn : Type :=
  | ValueError (msg : string)
  | KeyError (k : string)
  | AssertionError (msg : string)
  | AttributeError (attr : string)
  | RecursionError.

(** A call either returns a value or raises. *)
Inductive outcome (A : Type) : Type :=
  | Returned (a : A)
  | Raised (e : exn).
Arguments Returned {A} a.
Arguments Raised {A} e.

#[global] Instance outcome_ret : MRet outcome := fun A a => Returned a.
#[global] Instance outcome_bind : MBind outcome := fun A B f m =>
  match m with
  | Returned a => f a
  | Raised e => Raised e
  end.

Section list_builtins.
Context {A : Type} `{EqDecision A}.

(** [l.index(x)]: position of the first element equal to [x]. *)
Fixpoint list_index (x : A) (l : list A) : option nat :=
  match l with
  | [] => None
  | y :: l' => if decide (y = x) then Some 0 else S <$> list_index x l'
  end.

(** [l.remove(x)]: the list without its first element equal to [x]. *)
Fixpoint list_remove (x : A) (l : list A) : option (list A) :=
  match l with
  | [] => None
  | y :: l' => if decide (y = x) then Some l' else (y ::.) <$> list_remove x l'
  end.

(** [l.insert(i, x)]: [x] is put before position [i]; past the end it is
    appended. *)
Definition list_insert_at (i : nat) (x : A) (l : list A) : list A :=
  take i l ++ x :: drop i l.
End list_builtins.

Definition getattr_key (b : model.Block) : outcome string :=
  match model.key b with
  | Some k => Returned k
  | None => Raised (AttributeError "key")
  end.

Definition dict_getitem (d : gmap string model.Block) (k : string)
  : outcome model.Block :=
  match d !! k with
  | Some v => Returned v
  | None => Raised (KeyError k)
  end.

(** ** bibtexparser.library *)

(** The instance attributes of a [Library] object. *)
Record Library : Type := mkLibrary {
  _blocks : list model.Block;
  _entries_by_key : gmap string model.Block;
  _strings_by_key : gmap string model.Block
}.

(** A method of [Library]: from the object before the call to the object
    after it and the outcome of the call. *)
Definition method (A : Type) : Type := Library -> Library * outcome A.

#[global] Instance method_ret : MRet method := fun A a self => (self, Returned a).
#[global] Instance method_bind : MBind method := fun A B f m self =>
  match m self with
  | (self', Returned a) => f a self'
  | (self', Raised e) => (self', Raised e)
  end.

Definition raise {A : Type} (e : exn) : method A := fun self => (self, Raised e).

Definition lift {A : Type} (o : outcome A) : method A := fun self => (self, o).

Definition get_self : method Library := fun self => (self, Returned self).

(** [try: body  except ValueError: handler] *)
Definition except_ValueError {A : Type} (body handler : method A) : method A :=
  fun self =>
    match body self with
    | (self', Raised (ValueError _)) => handler self'
    | r => r
    end.

Fixpoint for_each {A : Type} (body : A -> method unit) (l : list A) : method unit :=
  match l with
  | [] => mret tt
  | x :: l' => body x ;; for_each body l'
  end.

(** The statements that touch the attributes. *)
Definition blocks_append (b : model.Block) : method unit := fun self =>
  (mkLibrary (_blocks self ++ [b]) (_entries_by_key self) (_strings_by_key self),
   Returned tt).

Definition blocks_remove (b : model.Block) : method unit := fun self =>
  match list_remove b (_blocks self) with
  | Some l => (mkLibrary l (_entries_by_key self) (_strings_by_key self), Returned tt)
  | None => (self, Raised (ValueError "list.remove(x): x not in list"))
  end.

Definition blocks_index (b : model.Block) : method nat := fun self =>
  match list_index b (_blocks self) with
  | Some i => (self, Returned i)
  | None => (self, Raised (ValueError "x is not in list"))
  end.

Definition blocks_insert (i : nat) (b : model.Block) : method unit := fun self =>
  (mkLibrary (list_insert_at i b (_blocks self)) (_entries_by_key self)
     (_strings_by_key self), Returned tt).

Definition entries_setitem (k : string) (b : model.Block) : method unit := fun self =>
  (mkLibrary (_blocks self) (<[k := b]> (_entries_by_key self)) (_strings_by_key self),
   Returned tt).

Definition strings_setitem (k : string) (b : model.Block) : method unit := fun self =>
  (mkLibrary (_blocks self) (_entries_by_key self) (<[k := b]> (_strings_by_key self)),
   Returned tt).

Definition entries_delitem (k : string) : method unit := fun self =>
  match _entries_by_key self !! k with
  | Some _ =>
      (mkLibrary (_blocks self) (delete k (_entries_by_key self)) (_strings_by_key self),
       Returned tt)
  | None => (self, Raised (KeyError k))
  end.

Definition strings_delitem (k : string) : method unit := fun self =>
  match _strings_by_key self !! k with
  | Some _ =>
      (mkLibrary (_blocks self) (_entries_by_key self) (delete k (_strings_by_key self)),
       Returned tt)
  | None => (self, Raised (KeyError k))
  end.

Module library.

(** [Library.__init__]: the list is copied, both dictionaries start empty. *)
Definition __init__ (blocks : option (list model.Block)) : Library :=
  mkLibrary (match blocks with Some l => l | None => [] end) ∅ ∅.

(** The argument of [add] and [remove]: one block or a list of blocks. *)
Inductive blocks_arg : Type :=
  | One (block : model.Block)
  | Many (blocks : list model.Block).

Definition as_list (blocks : blocks_arg) : list model.Block :=
  match blocks with
  | One b => [b]
  | Many l => l
  end.

(** [Library._cast_to_duplicate], a static method. *)
Definition _cast_to_duplicate (prev_block_with_same_key duplicate : model.Block)
  : outcome model.Block :=
  if negb (model.isinstance prev_block_with_same_key (model.type duplicate)
           || model.isinstance duplicate (model.type prev_block_with_same_key))
  then Raised (AssertionError
         "Internal BibtexParser Error. Duplicate blocks share no common type.")
  else
    kp ← getattr_key prev_block_with_same_key;
    kd ← getattr_key duplicate;
    if negb (bool_decide (kp = kd))
    then Raised (AssertionError
           "Internal BibtexParser Error. Duplicate blocks have different keys.")
    else
      Returned (model.DuplicateKeyBlock (model.start_line duplicate)
                  (model.raw duplicate) kd prev_block_with_same_key duplicate).

(** The [try] body of [_add_to_dicts] with its [except KeyError: pass]:
    the value of [block] when the [finally] clause starts, and the exception
    that is still pending, if any. *)
Definition try_cast (by_key : gmap string model.Block) (block : model.Block)
  : model.Block * option exn :=
  match (k ← getattr_key block;
         prev_block_with_same_key ← dict_getitem by_key k;
         _cast_to_duplicate prev_block_with_same_key block) with
  | Returned dup => (dup, None)
  | Raised (KeyError _) => (block, None)
  | Raised e => (block, Some e)
  end.

(** [Library._add_to_dicts] *)
Definition _add_to_dicts (block : model.Block) : method model.Block :=
  if model.isinstance block model.TEntry then
    self ← get_self;
    let '(block, pending) := try_cast (_entries_by_key self) block in
    k ← lift (getattr_key block);
    entries_setitem k block ;;
    match pending with
    | Some e => raise e
    | None => mret block
    end
  else if model.isinstance block model.TString then
    self ← get_self;
    let '(block, pending) := try_cast (_strings_by_key self) block in
    k ← lift (getattr_key block);
    strings_setitem k block ;;
    match pending with
    | Some e => raise e
    | None => mret block
    end
  else mret block.

(** [Library.add] *)
Definition add (blocks : blocks_arg) : method unit :=
  for_each (fun block =>
              block ← _add_to_dicts block;
              blocks_append block)
           (as_list blocks).

(** [Library.remove] *)
Definition remove (blocks : blocks_arg) : method unit :=
  for_each (fun block =>
              blocks_remove block ;;
              if model.isinstance block model.TEntry then
                k ← lift (getattr_key block); entries_delitem k
              else if model.isinstance block model.TString then
                k ← lift (getattr_key block); strings_delitem k
              else mret tt)
           (as_list blocks).

(** [Library.replace].  The method calls itself to revert; [depth] is the
    number of stack frames still available.  [new_block is not
    block_after_add] compares identities: [_add_to_dicts] returns its
    argument or a new [DuplicateKeyBlock] that wraps it, and such a block
    never equals the block it wraps, so the values are compared. *)
Fixpoint replace_rec (depth : nat) (old_block new_block : model.Block)
    (fail_on_duplicate_key : bool) : method unit :=
  index ← except_ValueError
             (index ← blocks_index old_block;
              remove (One old_block) ;;
              mret index)
             (raise (ValueError "Block to replace is not in library."));
  blocks_insert index new_block ;;
  block_after_add ← _add_to_dicts new_block;
  if negb (bool_decide (new_block = block_after_add))
     && model.isinstance new_block model.TDuplicateKeyBlock
     && fail_on_duplicate_key
  then
    match depth with
    | O => raise RecursionError
    | S depth' => replace_rec depth' new_block old_block false
    end ;;
    raise (ValueError "Duplicate key found.")
  else mret tt.

Definition recursion_limit : nat := 1000.

Definition replace (old_block new_block : model.Block)
    (fail_on_duplicate_key : bool) : method unit :=
  replace_rec recursion_limit old_block new_block fail_on_duplicate_key.

(** The accessors return copies. *)
Definition blocks (self : Library) : list model.Block := _blocks self.
Definition entries_dict (self : Library) : gmap string model.Block :=
  _entries_by_key self.
Definition strings_dict (self : Library) : gmap string model.Block :=
  _strings_by_key self.

Definition preambles (self : Library) : list model.Block :=
  filter (fun b => model.isinstance b model.TPreamble = true) (_blocks self).

Definition comments (self : Library) : list model.Block :=
  filter (fun b => model.isinstance b model.TExplicitComment
                   || model.isinstance b model.TImplicitComment = true)
         (_blocks self).

(** Modelled from the spec: [bibtexparser.middleware.BlockMiddleware], of
    which [library.py] uses only [transform]: a pure function from a block
    and the library to the replacement block. *)
Record BlockMiddleware : Type := mkBlockMiddleware {
  transform : model.Block -> Library -> model.Block
}.

Inductive middlewares_arg : Type :=
  | OneMiddleware (middleware : BlockMiddleware)
  | ManyMiddlewares (middlewares : list BlockMiddleware).

Definition middlewares_as_list (middlewares : middlewares_arg)
  : list BlockMiddleware :=
  match middlewares with
  | OneMiddleware m => [m]
  | ManyMiddlewares l => l
  end.

(** [Library.apply_middleware]: the receiver is only read, the result is a
    new object. *)
Definition apply_middleware (middlewares : middlewares_arg) (self : Library)
  : Library :=
  let transformed_blocks := _blocks self in
  let transformed_blocks :=
    foldl (fun transformed_blocks block_middleware =>
             (fun b => transform block_middleware b self) <$> _blocks self)
          transformed_blocks (middlewares_as_list middlewares) in
  __init__ (Some transformed_blocks).

End library.

(** ** Definitions used to state the properties *)

(** How a block that went through [_add_to_dicts] relates to the block
    handed in: it is that block, or the [DuplicateKeyBlock] that wraps it
    together with the block that held its key. *)
Inductive registered_as (b : model.Block) : model.Block -> Prop :=
  | registered_same : registered_as b b
  | registered_duplicate (k : string) (prev : model.Block) :
      model.key b = Some k ->
      registered_as b
        (model.DuplicateKeyBlock (model.start_line b) (model.raw b) k prev b).

(** A sequence of [add] calls on one library; the caller carries on after a
    call that raised.  The outcomes of the calls are collected. *)
Fixpoint add_calls (calls : list library.blocks_arg) (self : Library)
  : Library * list (outcome unit) :=
  match calls with
  | [] => (self, [])
  | blocks :: calls' =>
      let '(self', o) := library.add blocks self in
      let '(final, os) := add_calls calls' self' in
      (final, o :: os)
  end.

(** [replace] without the revert. *)
Definition replace_body (old_block new_block : model.Block) : method unit :=
  index ← except_ValueError
             (index ← blocks_index old_block;
              library.remove (library.One old_block) ;;
              mret index)
             (raise (ValueError "Block to replace is not in library."));
  blocks_insert index new_block ;;
  _ ← library._add_to_dicts new_block;
  mret tt.

(** The dictionary slot that [_add_to_dicts] would use for [b] is empty:
    no block of [b]'s class is filed under [b.key].  Blocks without a
    dictionary (neither [Entry] nor [String]) have nothing to collide with. *)
Definition key_free (b : model.Block) (self : Library) : Prop :=
  match b with
  | model.Entry _ _ k _ _ => _entries_by_key self !! k = None
  | model.String _ _ k _ => _strings_by_key self !! k = None
  | _ => True
  end.

(** What a dictionary of class [t] may hold under the key [k]: a block of
    class [t] with key [k], or the [DuplicateKeyBlock] that
    [_cast_to_duplicate] builds from two such blocks. *)
Definition filed_ok (t : model.BlockType) (k : string) (v : model.Block) : Prop :=
  (model.type v = t /\ model.key v = Some k)
  \/ exists prev duplicate,
       v = model.DuplicateKeyBlock (model.start_line duplicate)
             (model.raw duplicate) k prev duplicate
       /\ model.type prev = t /\ model.key prev = Some k
       /\ model.type duplicate = t /\ model.key duplicate = Some k.

Definition dicts_well_formed (self : Library) : Prop :=
  (forall k v, _entries_by_key self !! k = Some v -> filed_ok model.TEntry k v)
  /\ (forall k v, _strings_by_key self !! k = Some v -> filed_ok model.TString k v).

(** Every value of both dictionaries is somewhere in the sequence. *)
Definition values_in_sequence (self : Library) : Prop :=
  (forall k v, _entries_by_key self !! k = Some v -> v ∈ _blocks self)
  /\ (forall k v, _strings_by_key self !! k = Some v -> v ∈ _blocks self).

(** The class and key of an [Entry] or a [String]; nothing for the other
    classes, whose blocks are not looked up by key. *)
Definition plain_key (b : model.Block) : option (model.BlockType * string) :=
  match b with
  | model.Entry _ _ k _ _ => Some (model.TEntry, k)
  | model.String _ _ k _ => Some (model.TString, k)
  | _ => None
  end.

Definition plain_keys (l : list model.Block) : list (model.BlockType * string) :=
  omap plain_key l.

(** An [Entry] or a [String] has its key mapped in the dictionary of its
    class; nothing is asked of the other classes. *)
Definition block_mapped (b : model.Block) (self : Library) : Prop :=
  match b with
  | model.Entry _ _ k _ _ => is_Some (_entries_by_key self !! k)
  | model.String _ _ k _ => is_Some (_strings_by_key self !! k)
  | _ => True
  end.

Definition keyed_blocks_mapped (self : Library) : Prop :=
  forall b, b ∈ _blocks self -> block_mapped b self.

(** Every keyed block of the sequence has its key mapped, and no class and
    key occurs twice among the entries and strings of the sequence. *)
Definition one_plain_block_per_key (self : Library) : Prop :=
  keyed_blocks_mapped self /\ NoDup (plain_keys (_blocks self)).

(** A method keeps a property of the library, whether it returns or
    raises. *)
Definition preserves {A : Type} (P : Library -> Prop) (m : method A) : Prop :=
  forall self, P self -> P (m self).1.

(** A call of one of the three mutating methods, and a sequence of such
    calls on one library, the caller carrying on after a call that raised. *)
Inductive call : Type :=
  | CallAdd (blocks : library.blocks_arg)
  | CallRemove (blocks : library.blocks_arg)
  | CallReplace (old_block new_block : model.Block)
      (fail_on_duplicate_key : bool).

Definition run_call (c : call) : method unit :=
  match c with
  | CallAdd blocks => library.add blocks
  | CallRemove blocks => library.remove blocks
  | CallReplace old_block new_block fail_on_duplicate_key =>
      library.replace old_block new_block fail_on_duplicate_key
  end.

Fixpoint run_calls (calls : list call) (self : Library) : Library :=
  match calls with
  | [] => self
  | c :: calls' => run_calls calls' (run_call c self).1
  end.

Definition is_replace (c : call) : bool :=
  match c with
  | CallReplace _ _ _ => true
  | _ => false
  end.

(** ** Concrete blocks, libraries and steps *)

Definition e1 : model.Block := model.Entry (Some 1%Z) "@article{k1}" "k1" "article" [].
Definition e2 : model.Block := model.Entry (Some 2%Z) "@article{k2}" "k2" "article" [].
Definition e3 : model.Block := model.Entry (Some 3%Z) "@book{k1}" "k1" "book" [].

Definition d13 : model.Block :=
  model.DuplicateKeyBlock (Some 3%Z) "@book{k1}" "k1" e1 e3.

(** The library after [add([e1, e2])] on a new library. *)
Definition lib12 : Library :=
  (library.add (library.Many [e1; e2]) (library.__init__ None)).1.

(** A step that renames every entry to the key ["x"], and a step that
    turns every entry into a [misc] entry. *)
Definition rename_to_x : library.BlockMiddleware :=
  library.mkBlockMiddleware (fun b _ =>
    match b with
    | model.Entry s r _ t f => model.Entry s r "x" t f
    | _ => b
    end).

Definition retype_to_misc : library.BlockMiddleware :=
  library.mkBlockMiddleware (fun b _ =>
    match b with
    | model.Entry s r k _ f => model.Entry s r k "misc" f
    | _ => b
    end).

(** * Properties *)

(** ** The list built-ins *)

Section list_builtins_facts.
Context {A : Type} `{EqDecision A}.
Implicit Types (x y : A) (l : list A).

Lemma list_remove_None x l : list_remove x l = None <-> x ∉ l.
Proof.
  induction l as [|y l IH]; simpl.
  - split; [intros _; apply not_elem_of_nil | done].
  - destruct (decide (y = x)) as [->|Hne].
    + split; [done | intros []; left].
    + rewrite fmap_None, IH, not_elem_of_cons. intuition congruence.
Qed.

Lemma list_remove_is_Some x l : x ∈ l -> is_Some (list_remove x l).
Proof.
  intros Hin. destruct (list_remove x l) eqn:E; [eauto|].
  apply list_remove_None in E. done.
Qed.

(** Removing [x] keeps every element different from [x]. *)
Lemma list_remove_keeps x y l l' :
  list_remove x l = Some l' -> y <> x -> y ∈ l -> y ∈ l'.
Proof.
  revert l'. induction l as [|z l IH]; intros l'; simpl; [done|].
  destruct (decide (z = x)) as [->|Hne]; intros Hr Hyx Hin.
  - injection Hr as <-. apply elem_of_cons in Hin as [?|?]; [done|done].
  - destruct (list_remove x l) as [l''|] eqn:E; [|done].
    injection Hr as <-. apply elem_of_cons in Hin as [->|Hin].
    + left.
    + right. by apply IH.
Qed.

Lemma list_index_None x l : list_index x l = None <-> x ∉ l.
Proof.
  induction l as [|y l IH]; simpl.
  - split; [intros _; apply not_elem_of_nil | done].
  - destruct (decide (y = x)) as [->|Hne].
    + split; [done | intros []; left].
    + rewrite fmap_None, IH, not_elem_of_cons. intuition congruence.
Qed.

(** Removing the element found by [index] and inserting at that position
    replaces the element in place. *)
Lemma list_remove_insert_at x y l i l' :
  list_index x l = Some i -> list_remove x l = Some l' ->
  list_insert_at i y l' = <[i := y]> l.
Proof.
  revert i l'. induction l as [|z l IH]; intros i l'; simpl; [done|].
  destruct (decide (z = x)) as [->|Hne].
  - by intros [= <-] [= <-].
  - destruct (list_index x l) eqn:Ei; [|done].
    destruct (list_remove x l) eqn:Er; [|done].
    intros [= <-] [= <-]. unfold list_insert_at in *. simpl.
    f_equal. by apply IH.
Qed.
End list_builtins_facts.

(** ** Unfolding the method combinators *)

Ltac unfold_method :=
  unfold mbind, method_bind, mret, method_ret, raise, lift, get_self,
    except_ValueError, blocks_append, blocks_remove, blocks_index,
    blocks_insert, entries_setitem, strings_setitem, entries_delitem,
    strings_delitem in *.

Lemma for_each_one {A : Type} (body : A -> method unit) (x : A) (self : Library) :
  for_each body [x] self = body x self.
Proof.
  simpl. unfold_method. destruct (body x self) as [self' [[]|e]]; reflexivity.
Qed.

(** Two continuations that agree on what the first part returns give the
    same method. *)
Lemma method_bind_ext {A B : Type} (m : method A) (f g : A -> method B)
    (self : Library) :
  (forall a self', m self = (self', Returned a) -> f a self' = g a self') ->
  (m ≫= f) self = (m ≫= g) self.
Proof.
  intros H. unfold mbind, method_bind.
  destruct (m self) as [self' [a|e]]; [by apply H | reflexivity].
Qed.

(** An exception out of [m ≫= f] was raised by [m] or by [f]. *)
Lemma method_bind_raised {A B : Type} (m : method A) (f : A -> method B)
    (self : Library) (e : exn) :
  ((m ≫= f) self).2 = Raised e ->
  (m self).2 = Raised e
  \/ exists a self', m self = (self', Returned a) /\ (f a self').2 = Raised e.
Proof.
  unfold mbind, method_bind.
  destruct (m self) as [self' [a|e']]; simpl; [eauto | intros [= <-]; auto].
Qed.

(** ** The model *)

(** A freshly built [DuplicateKeyBlock] wraps the block it replaces, so it
    is never that block: the identity test [new_block is not block_after_add]
    of [replace] and the comparison of the values agree. *)
Lemma DuplicateKeyBlock_neq s r k p b : model.DuplicateKeyBlock s r k p b <> b.
Proof.
  revert s r k p.
  induction b as [| | | | |s' r' k' p' IHp b' IHb|]; intros s r k p; try discriminate.
  intros [= -> -> -> -> Hb]. exact (IHb _ _ _ _ Hb).
Qed.

(** ** remove *)

(** What [remove(b)] does for a single block: the first element equal to
    [b] leaves the list, then the dictionary of [b]'s class loses [b.key]. *)
Lemma remove_One_absent (b : model.Block) (self : Library) :
  list_remove b (_blocks self) = None ->
  library.remove (library.One b) self
  = (self, Raised (ValueError "list.remove(x): x not in list")).
Proof.
  intros Hr. unfold library.remove, library.as_list.
  rewrite for_each_one. unfold_method. by rewrite Hr.
Qed.

Lemma remove_One_present (b : model.Block) (self : Library) (l : list model.Block) :
  list_remove b (_blocks self) = Some l ->
  library.remove (library.One b) self
  = match b with
    | model.Entry _ _ k _ _ =>
        (mkLibrary l (delete k (_entries_by_key self)) (_strings_by_key self),
         match _entries_by_key self !! k with
         | Some _ => Returned tt
         | None => Raised (KeyError k)
         end)
    | model.String _ _ k _ =>
        (mkLibrary l (_entries_by_key self) (delete k (_strings_by_key self)),
         match _strings_by_key self !! k with
         | Some _ => Returned tt
         | None => Raised (KeyError k)
         end)
    | _ => (mkLibrary l (_entries_by_key self) (_strings_by_key self), Returned tt)
    end.
Proof.
  intros Hr. unfold library.remove, library.as_list.
  rewrite for_each_one. unfold_method. rewrite Hr.
  destruct b; simpl; try reflexivity.
  - destruct (_entries_by_key self !! key) eqn:E; [reflexivity|].
    by rewrite (delete_id _ _ E).
  - destruct (_strings_by_key self !! key) eqn:E; [reflexivity|].
    by rewrite (delete_id _ _ E).
Qed.

(** C7: removing a block that is not in the ordered sequence raises the
    not-found error ([ValueError], from [list.remove]) and leaves the
    sequence and both dictionaries as they were. *)
Theorem remove_absent_raises_unchanged (self : Library) (b : model.Block) :
  b ∉ library.blocks self ->
  library.remove (library.One b) self
  = (self, Raised (ValueError "list.remove(x): x not in list")).
Proof.
  intros Hb. apply remove_One_absent. by apply list_remove_None.
Qed.

Lemma remove_absent_raises_unchanged_witness :
  let self := (library.add (library.Many [e1; e2]) (library.__init__ None)).1 in
  (e3 ∉ library.blocks self)
  /\ library.remove (library.One e3) self
     = (self, Raised (ValueError "list.remove(x): x not in list")).
Proof.
  assert (H : e3 ∉ library.blocks
            (library.add (library.Many [e1; e2]) (library.__init__ None)).1).
  { vm_compute. intros Hin.
    repeat (apply elem_of_cons in Hin as [Hin|Hin]; [discriminate Hin|]).
    by apply not_elem_of_nil in Hin. }
  split; [exact H|].
  exact (remove_absent_raises_unchanged _ e3 H).
Defined.

(** C9: removing a block that is neither an [Entry] nor a [String] leaves
    both dictionaries as they were, whatever they hold (also when a
    dictionary value is that very block); when the block is in the sequence
    the call returns and its first occurrence has left the sequence. *)
Theorem remove_unkeyed_leaves_dicts (self : Library) (b : model.Block) :
  model.isinstance b model.TEntry = false ->
  model.isinstance b model.TString = false ->
  let after := library.remove (library.One b) self in
  library.entries_dict after.1 = library.entries_dict self
  /\ library.strings_dict after.1 = library.strings_dict self
  /\ (b ∈ library.blocks self ->
      after.2 = Returned tt
      /\ list_remove b (library.blocks self) = Some (library.blocks after.1)).
Proof.
  intros HE HS after. subst after.
  destruct (list_remove b (_blocks self)) as [l|] eqn:Hr.
  - rewrite (remove_One_present _ _ _ Hr).
    destruct b; try discriminate HE; try discriminate HS; simpl;
      unfold library.blocks; rewrite Hr; auto.
  - rewrite (remove_One_absent _ _ Hr). simpl.
    split; [reflexivity|]. split; [reflexivity|].
    intros Hin. by apply list_remove_None in Hr.
Qed.

Lemma remove_unkeyed_leaves_dicts_witness :
  let d13 := model.DuplicateKeyBlock (Some 3%Z) "@book{k1}" "k1" e1 e3 in
  let self := mkLibrary [e1; d13] {[ "k1" := d13 ]} ∅ in
  let after := library.remove (library.One d13) self in
  library.entries_dict after.1 = library.entries_dict self
  /\ library.strings_dict after.1 = library.strings_dict self
  /\ (d13 ∈ library.blocks self ->
      after.2 = Returned tt
      /\ list_remove d13 (library.blocks self) = Some (library.blocks after.1)).
Proof.
  exact (remove_unkeyed_leaves_dicts
           (mkLibrary [e1; model.DuplicateKeyBlock (Some 3%Z) "@book{k1}" "k1" e1 e3]
              {[ "k1" := model.DuplicateKeyBlock (Some 3%Z) "@book{k1}" "k1" e1 e3 ]} ∅)
           (model.DuplicateKeyBlock (Some 3%Z) "@book{k1}" "k1" e1 e3)
           eq_refl eq_refl).
Defined.

(** C10: removing an [Entry] (a [String]) that is in the sequence takes its
    first occurrence out of the sequence and leaves the entry (string)
    dictionary without a mapping for its key, whatever the dictionary held
    for that key; the other dictionary is untouched, and every block
    different from the removed one, such as a [DuplicateKeyBlock] that had
    taken over the key, stays in the sequence.  The call returns when the
    key was mapped and raises [KeyError] when it was not. *)
Theorem remove_keyed_deletes_key (self : Library) (b : model.Block) (k : string) :
  b ∈ library.blocks self ->
  model.key b = Some k ->
  let after := library.remove (library.One b) self in
  list_remove b (library.blocks self) = Some (library.blocks after.1)
  /\ (forall v, v <> b -> v ∈ library.blocks self -> v ∈ library.blocks after.1)
  /\ (model.isinstance b model.TEntry = true ->
      library.entries_dict after.1 = delete k (library.entries_dict self)
      /\ library.entries_dict after.1 !! k = None
      /\ library.strings_dict after.1 = library.strings_dict self
      /\ after.2 = match library.entries_dict self !! k with
                   | Some _ => Returned tt
                   | None => Raised (KeyError k)
                   end)
  /\ (model.isinstance b model.TString = true ->
      library.strings_dict after.1 = delete k (library.strings_dict self)
      /\ library.strings_dict after.1 !! k = None
      /\ library.entries_dict after.1 = library.entries_dict self
      /\ after.2 = match library.strings_dict self !! k with
                   | Some _ => Returned tt
                   | None => Raised (KeyError k)
                   end).
Proof.
  intros Hin Hk after. subst after.
  destruct (list_remove_is_Some _ _ Hin) as [l Hr].
  pose proof (fun v => list_remove_keeps b v _ _ Hr) as Hkeep.
  rewrite (remove_One_present _ _ _ Hr). unfold library.blocks in *.
  destruct b; try discriminate Hk; injection Hk as ->; simpl;
    (split; [exact Hr|]); (split; [intros v ? ?; by apply Hkeep|]);
    (split; [intros HE; try discriminate HE | intros HS; try discriminate HS]);
    unfold library.entries_dict, library.strings_dict; simpl;
    rewrite ?lookup_delete_eq; auto.
Qed.

Lemma remove_keyed_deletes_key_witness :
  let d13 := model.DuplicateKeyBlock (Some 3%Z) "@book{k1}" "k1" e1 e3 in
  let self := mkLibrary [e1; d13] {[ "k1" := d13 ]} ∅ in
  let after := library.remove (library.One e1) self in
  library.entries_dict self !! "k1" = Some d13
  /\ library.entries_dict after.1 !! "k1" = None
  /\ d13 ∈ library.blocks after.1
  /\ after.2 = Returned tt.
Proof.
  intros d13 self after.
  assert (Hin : e1 ∈ library.blocks self) by left.
  destruct (remove_keyed_deletes_key self e1 "k1" Hin eq_refl)
    as (_ & Hkeep & HE & _).
  destruct (HE eq_refl) as (_ & Hnone & _ & Hret).
  split; [reflexivity|]. split; [exact Hnone|].
  split; [|exact Hret].
  apply Hkeep; [discriminate|]. right; left.
Defined.

(** ** add *)

(** What [_add_to_dicts] does with an [Entry] whose key is mapped to an
    [Entry]: the cast succeeds and the dictionary takes the duplicate. *)
Lemma add_to_dicts_second_entry (self : Library) (k : string)
    s1 r1 t1 f1 s2 r2 t2 f2 :
  _entries_by_key self !! k = Some (model.Entry s1 r1 k t1 f1) ->
  let dup := model.DuplicateKeyBlock s2 r2 k (model.Entry s1 r1 k t1 f1)
               (model.Entry s2 r2 k t2 f2) in
  library._add_to_dicts (model.Entry s2 r2 k t2 f2) self
  = (mkLibrary (_blocks self) (<[k := dup]> (_entries_by_key self))
       (_strings_by_key self), Returned dup).
Proof.
  intros Hk dup. unfold library._add_to_dicts. simpl. unfold_method.
  unfold library.try_cast, dict_getitem. simpl. unfold mbind, outcome_bind.
  rewrite Hk. simpl. unfold library._cast_to_duplicate. simpl.
  unfold mbind, outcome_bind. simpl.
  rewrite bool_decide_eq_true_2 by reflexivity. reflexivity.
Qed.

(** [add(b)] for a single block: register, then append what was registered;
    nothing is appended when the registration raises. *)
Lemma add_One (b : model.Block) (self : Library) :
  library.add (library.One b) self
  = match library._add_to_dicts b self with
    | (self', Returned r) =>
        (mkLibrary (_blocks self' ++ [r]) (_entries_by_key self')
           (_strings_by_key self'), Returned tt)
    | (self', Raised e) => (self', Raised e)
    end.
Proof.
  unfold library.add, library.as_list. rewrite for_each_one.
  unfold_method. destruct (library._add_to_dicts b self) as [self' [r|e]]; reflexivity.
Qed.

(** C6: when the entry dictionary maps [k] to an [Entry] with key [k] that
    sits at position [i], adding a second [Entry] with key [k] returns, maps
    [k] to the [DuplicateKeyBlock] of the two ([previous_block] the first,
    [duplicate_block] the second), appends that [DuplicateKeyBlock] to the
    sequence and leaves the first [Entry] at position [i]. *)
Theorem add_second_entry_registers_duplicate (self : Library) (i : nat)
    (k : string) s1 r1 t1 f1 s2 r2 t2 f2 :
  let first := model.Entry s1 r1 k t1 f1 in
  let second := model.Entry s2 r2 k t2 f2 in
  library.blocks self !! i = Some first ->
  library.entries_dict self !! k = Some first ->
  let dup := model.DuplicateKeyBlock (model.start_line second)
               (model.raw second) k first second in
  let after := library.add (library.One second) self in
  after.2 = Returned tt
  /\ library.entries_dict after.1 = <[k := dup]> (library.entries_dict self)
  /\ library.entries_dict after.1 !! k = Some dup
  /\ library.strings_dict after.1 = library.strings_dict self
  /\ library.blocks after.1 = library.blocks self ++ [dup]
  /\ library.blocks after.1 !! length (library.blocks self) = Some dup
  /\ library.blocks after.1 !! i = Some first.
Proof.
  intros first second Hi Hk dup after. subst after.
  unfold library.entries_dict in Hk. subst first second.
  rewrite add_One, (add_to_dicts_second_entry self k s1 r1 t1 f1 s2 r2 t2 f2 Hk).
  unfold library.entries_dict, library.strings_dict, library.blocks in *. simpl.
  repeat split.
  - apply lookup_insert_eq.
  - by rewrite lookup_app_r, Nat.sub_diag.
  - rewrite lookup_app_l; [done|]. by apply lookup_lt_Some in Hi.
Qed.

Lemma add_second_entry_registers_duplicate_witness :
  let self := (library.add (library.One e1) (library.__init__ None)).1 in
  let dup := model.DuplicateKeyBlock (Some 3%Z) "@book{k1}" "k1" e1 e3 in
  let after := library.add (library.One e3) self in
  after.2 = Returned tt
  /\ library.entries_dict after.1 = <[ "k1" := dup ]> (library.entries_dict self)
  /\ library.entries_dict after.1 !! "k1" = Some dup
  /\ library.strings_dict after.1 = library.strings_dict self
  /\ library.blocks after.1 = library.blocks self ++ [dup]
  /\ library.blocks after.1 !! length (library.blocks self) = Some dup
  /\ library.blocks after.1 !! 0 = Some e1.
Proof.
  exact (add_second_entry_registers_duplicate
           (library.add (library.One e1) (library.__init__ None)).1 0 "k1"
           (Some 1%Z) "@article{k1}" "article" []
           (Some 3%Z) "@book{k1}" "book" [] eq_refl eq_refl).
Defined.

Lemma try_cast_cases (by_key : gmap string model.Block) (b : model.Block) :
  library.try_cast by_key b = (b, None)
  \/ (exists e, library.try_cast by_key b = (b, Some e))
  \/ (exists k prev,
        model.key b = Some k /\ by_key !! k = Some prev
        /\ library.try_cast by_key b
           = (model.DuplicateKeyBlock (model.start_line b) (model.raw b) k prev b,
              None)).
Proof.
  unfold library.try_cast, getattr_key, dict_getitem.
  destruct (model.key b) as [k|] eqn:Hk; simpl; [|right; left; eauto].
  destruct (by_key !! k) as [prev|] eqn:Hl; simpl; [|left; reflexivity].
  unfold library._cast_to_duplicate, getattr_key. rewrite Hk.
  destruct (negb _); [right; left; eauto|].
  destruct (model.key prev) as [kp|]; simpl; [|right; left; eauto].
  destruct (negb _); [right; left; eauto|].
  right; right. eauto.
Qed.

(** [_add_to_dicts] never touches the sequence. *)
Lemma add_to_dicts_blocks (b : model.Block) (self : Library) :
  _blocks (library._add_to_dicts b self).1 = _blocks self.
Proof.
  unfold library._add_to_dicts.
  destruct (model.isinstance b model.TEntry);
    [|destruct (model.isinstance b model.TString); [|reflexivity]].
  all: unfold_method;
    match goal with |- context [library.try_cast ?m ?x] =>
      destruct (library.try_cast m x) as [b' [e|]] end;
    unfold getattr_key; destruct (model.key b'); reflexivity.
Qed.

Lemma add_to_dicts_registered (b r : model.Block) (self : Library) :
  (library._add_to_dicts b self).2 = Returned r -> registered_as b r.
Proof.
  unfold library._add_to_dicts.
  destruct (model.isinstance b model.TEntry);
    [|destruct (model.isinstance b model.TString);
      [|intros [= <-]; constructor]].
  all: unfold_method;
    match goal with |- context [library.try_cast ?m ?x] =>
      destruct (try_cast_cases m x) as [-> | [[e ->] | (k & prev & Hk & _ & ->)]]
    end;
    unfold getattr_key; simpl;
    [ destruct (model.key b); simpl; [intros [= <-]; constructor | discriminate]
    | destruct (model.key b); simpl; discriminate
    | intros [= <-]; by constructor ].
Qed.

Lemma add_Many_cons (b : model.Block) (bs : list model.Block) (self : Library) :
  library.add (library.Many (b :: bs)) self
  = match library._add_to_dicts b self with
    | (self', Returned r) =>
        library.add (library.Many bs)
          (mkLibrary (_blocks self' ++ [r]) (_entries_by_key self')
             (_strings_by_key self'))
    | (self', Raised e) => (self', Raised e)
    end.
Proof.
  unfold library.add, library.as_list. simpl. unfold_method.
  destruct (library._add_to_dicts b self) as [self' [r|e]]; reflexivity.
Qed.

Lemma add_as_Many (blocks : library.blocks_arg) (self : Library) :
  library.add blocks self = library.add (library.Many (library.as_list blocks)) self.
Proof. reflexivity. Qed.

(** One [add] call: the sequence grows by the registered forms of the blocks
    handled before the call returned or raised, in the order of the list. *)
Lemma add_blocks_order (blocks : library.blocks_arg) (self : Library) :
  exists done regs,
    done `prefix_of` library.as_list blocks
    /\ Forall2 registered_as done regs
    /\ _blocks (library.add blocks self).1 = _blocks self ++ regs
    /\ ((library.add blocks self).2 = Returned tt -> done = library.as_list blocks).
Proof.
  rewrite add_as_Many. generalize (library.as_list blocks) as bs. clear blocks.
  intros bs. revert self. induction bs as [|b bs IH]; intros self.
  - exists [], []. simpl. rewrite app_nil_r. repeat split; auto; constructor.
  - rewrite add_Many_cons.
    pose proof (add_to_dicts_blocks b self) as Hb.
    pose proof (fun r => add_to_dicts_registered b r self) as Hr.
    destruct (library._add_to_dicts b self) as [self1 [r|e]]; simpl in *.
    + match goal with |- context [library.add _ ?s] => set (self2 := s) end.
      destruct (IH self2) as (done & regs & Hpre & Hreg & Hbl & Hall).
      exists (b :: done), (r :: regs). repeat split.
      * by apply prefix_cons.
      * constructor; [by apply Hr | done].
      * rewrite Hbl. subst self2. simpl.
        rewrite Hb, <- app_assoc. reflexivity.
      * intros Hret. f_equal. by apply Hall.
    + exists [], []. rewrite app_nil_r.
      split; [apply prefix_nil|]. split; [constructor|]. split; [exact Hb|].
      discriminate.
Qed.

(** C8: after any sequence of [add] calls on an empty library, the [blocks]
    accessor returns, in the order of the calls, the registered form (the
    block itself or its [DuplicateKeyBlock]) of every block whose
    registration completed; when every call returned, these are all the
    blocks that were added. *)
Theorem blocks_preserve_insertion_order (calls : list library.blocks_arg) :
  let added := concat (library.as_list <$> calls) in
  let after := add_calls calls (library.__init__ None) in
  exists done,
    sublist done added
    /\ Forall2 registered_as done (library.blocks after.1)
    /\ (Forall (fun o => o = Returned tt) after.2 -> done = added).
Proof.
  intros added after. subst added after.
  cut (forall self,
         exists done regs,
           sublist done (concat (library.as_list <$> calls))
           /\ Forall2 registered_as done regs
           /\ _blocks (add_calls calls self).1 = _blocks self ++ regs
           /\ (Forall (fun o => o = Returned tt) (add_calls calls self).2 ->
               done = concat (library.as_list <$> calls))).
  { intros H. destruct (H (library.__init__ None)) as (done & regs & ? & ? & Hb & ?).
    exists done. unfold library.blocks. rewrite Hb. simpl. auto. }
  induction calls as [|c calls IH]; intros self.
  - exists [], []. simpl. rewrite app_nil_r. repeat split; auto; constructor.
  - simpl.
    destruct (add_blocks_order c self) as (d1 & r1 & Hp1 & Hf1 & Hb1 & Ha1).
    destruct (library.add c self) as [self1 o1]; simpl in *.
    destruct (IH self1) as (d2 & r2 & Hs2 & Hf2 & Hb2 & Ha2).
    destruct (add_calls calls self1) as [final os]; simpl in *.
    exists (d1 ++ d2), (r1 ++ r2). repeat split.
    + apply sublist_app; [|done]. destruct Hp1 as [rest ->].
      by apply sublist_inserts_r.
    + by apply Forall2_app.
    + rewrite Hb2, Hb1, <- app_assoc. reflexivity.
    + intros Hall. apply Forall_cons in Hall as [Ho Hos].
      rewrite (Ha1 Ho), (Ha2 Hos). reflexivity.
Qed.

(** A block that is neither an [Entry] nor a [String] is returned as it is
    and nothing is registered. *)
Lemma add_to_dicts_unkeyed (b : model.Block) (self : Library) :
  model.isinstance b model.TEntry = false ->
  model.isinstance b model.TString = false ->
  library._add_to_dicts b self = (self, Returned b).
Proof. intros HE HS. unfold library._add_to_dicts. by rewrite HE, HS. Qed.

(** The cast of a [DuplicateKeyBlock] and an [Entry] fails its first
    assertion: the two classes are unrelated. *)
Lemma cast_duplicate_with_entry s r k p d s' r' k' t' f' :
  library._cast_to_duplicate (model.DuplicateKeyBlock s r k p d)
    (model.Entry s' r' k' t' f')
  = Raised (AssertionError
      "Internal BibtexParser Error. Duplicate blocks share no common type.").
Proof. reflexivity. Qed.

(** X4: adding an [Entry] whose key is mapped to a [DuplicateKeyBlock]: the
    assertion of the cast fails, the [finally] clause has put the new entry
    in the dictionary, and nothing is appended. *)
Lemma add_entry_on_collided_key (self : Library) (k : string) s r p d s' r' t' f' :
  _entries_by_key self !! k = Some (model.DuplicateKeyBlock s r k p d) ->
  library.add (library.One (model.Entry s' r' k t' f')) self
  = (mkLibrary (_blocks self)
       (<[k := model.Entry s' r' k t' f']> (_entries_by_key self))
       (_strings_by_key self),
     Raised (AssertionError
       "Internal BibtexParser Error. Duplicate blocks share no common type.")).
Proof.
  intros Hk. rewrite add_One. unfold library._add_to_dicts. simpl.
  unfold_method. unfold library.try_cast, dict_getitem. simpl.
  unfold mbind, outcome_bind. rewrite Hk. reflexivity.
Qed.

(** ** replace *)

(** The test that guards the revert in [replace] asks whether [new_block]
    is a [DuplicateKeyBlock] and was changed by [_add_to_dicts]; a
    [DuplicateKeyBlock] is never changed by [_add_to_dicts], so the test is
    false on every input. *)
Lemma replace_guard_false (new_block block_after_add : model.Block)
    (self : Library) (fail_on_duplicate_key : bool) :
  (library._add_to_dicts new_block self).2 = Returned block_after_add ->
  negb (bool_decide (new_block = block_after_add))
  && model.isinstance new_block model.TDuplicateKeyBlock
  && fail_on_duplicate_key = false.
Proof.
  intros Hadd.
  destruct (model.isinstance new_block model.TDuplicateKeyBlock) eqn:HD;
    [|by rewrite andb_false_r].
  rewrite add_to_dicts_unkeyed in Hadd by (by destruct new_block).
  injection Hadd as <-. by rewrite bool_decide_eq_true_2.
Qed.

(** The revert is never entered, whatever the flag and the stack depth. *)
Lemma replace_rec_body (depth : nat) (old_block new_block : model.Block)
    (fail_on_duplicate_key : bool) (self : Library) :
  library.replace_rec depth old_block new_block fail_on_duplicate_key self
  = replace_body old_block new_block self.
Proof.
  assert (Hstep : forall (revert : method unit),
    (index ← except_ValueError
               (index ← blocks_index old_block;
                library.remove (library.One old_block) ;;
                mret index)
               (raise (ValueError "Block to replace is not in library."));
     blocks_insert index new_block ;;
     block_after_add ← library._add_to_dicts new_block;
     if negb (bool_decide (new_block = block_after_add))
        && model.isinstance new_block model.TDuplicateKeyBlock
        && fail_on_duplicate_key
     then revert ;; raise (ValueError "Duplicate key found.")
     else mret tt) self
    = replace_body old_block new_block self).
  { intros revert. unfold replace_body.
    apply method_bind_ext; intros index self1 _.
    apply method_bind_ext; intros [] self2 _.
    apply method_bind_ext; intros b self3 Hadd.
    rewrite (replace_guard_false new_block b self2); [reflexivity|].
    by rewrite Hadd. }
  destruct depth; simpl; apply Hstep.
Qed.

(** The exceptions [_cast_to_duplicate] and [_add_to_dicts] can raise. *)
Lemma cast_to_duplicate_raises (prev duplicate : model.Block) (e : exn) :
  library._cast_to_duplicate prev duplicate = Raised e ->
  (exists msg, e = AssertionError msg) \/ (exists a, e = AttributeError a).
Proof.
  unfold library._cast_to_duplicate, getattr_key.
  destruct (negb _); [intros [= <-]; eauto|].
  destruct (model.key prev); simpl; [|intros [= <-]; eauto].
  destruct (model.key duplicate); simpl; [|intros [= <-]; eauto].
  destruct (negb _); [intros [= <-]; eauto | discriminate].
Qed.

Lemma try_cast_pending (by_key : gmap string model.Block) (b b' : model.Block)
    (e : exn) :
  library.try_cast by_key b = (b', Some e) ->
  (exists msg, e = AssertionError msg) \/ (exists a, e = AttributeError a).
Proof.
  unfold library.try_cast, getattr_key, dict_getitem.
  destruct (model.key b) as [k|]; simpl; [|intros [= <- <-]; eauto].
  destruct (by_key !! k) as [prev|]; simpl; [|discriminate].
  destruct (library._cast_to_duplicate prev b) as [d|e'] eqn:Hc; [discriminate|].
  apply cast_to_duplicate_raises in Hc.
  destruct Hc as [[msg ->]|[a ->]]; intros [= <- <-]; eauto.
Qed.

Lemma add_to_dicts_raises (b : model.Block) (self : Library) (e : exn) :
  (library._add_to_dicts b self).2 = Raised e ->
  (exists msg, e = AssertionError msg) \/ (exists a, e = AttributeError a).
Proof.
  unfold library._add_to_dicts.
  destruct (model.isinstance b model.TEntry);
    [|destruct (model.isinstance b model.TString); [|discriminate]].
  all: unfold_method;
    match goal with |- context [library.try_cast ?m ?x] =>
      pose proof (try_cast_pending m x) as Hp;
      destruct (library.try_cast m x) as [b' [e'|]]
    end;
    unfold getattr_key; destruct (model.key b'); simpl;
    intros [= <-]; eauto.
Qed.

(** The exceptions a single-block [remove] can raise. *)
Lemma remove_One_raises (b : model.Block) (self : Library) (e : exn) :
  (library.remove (library.One b) self).2 = Raised e ->
  e = ValueError "list.remove(x): x not in list" \/ exists k, e = KeyError k.
Proof.
  destruct (list_remove b (_blocks self)) as [l|] eqn:Hr.
  - rewrite (remove_One_present _ _ _ Hr).
    destruct b; simpl; try discriminate.
    + destruct (_ !! _); [discriminate | intros [= <-]; eauto].
    + destruct (_ !! _); [discriminate | intros [= <-]; eauto].
  - rewrite (remove_One_absent _ _ Hr). simpl. intros [= <-]. auto.
Qed.

(** X14: [replace] never raises the [ValueError] with the message
    "Duplicate key found.", whatever the library, the blocks and the flag. *)
Lemma replace_never_raises_duplicate_key (old_block new_block : model.Block)
    (fail_on_duplicate_key : bool) (self : Library) :
  (library.replace old_block new_block fail_on_duplicate_key self).2
  <> Raised (ValueError "Duplicate key found.").
Proof.
  unfold library.replace. rewrite replace_rec_body. unfold replace_body.
  intros H.
  apply method_bind_raised in H as [H|(index & self1 & _ & H)].
  - unfold except_ValueError in H.
    match type of H with context [match ?x with _ => _ end] =>
      destruct x as [s' [i|e']] eqn:E
    end; [discriminate H|]. revert H.
    assert (He : e' = ValueError "x is not in list"
                 \/ e' = ValueError "list.remove(x): x not in list"
                 \/ exists k, e' = KeyError k).
    { assert (E' : ((blocks_index old_block ≫= λ index : nat,
                       library.remove (library.One old_block) ;; mret index)
                      self).2 = Raised e') by (by rewrite E).
      apply method_bind_raised in E' as [E'|(i & s1 & Hi & E')].
      - left. revert E'. unfold blocks_index.
        destruct (list_index _ _); simpl; [discriminate | by intros [= <-]].
      - right. apply method_bind_raised in E' as [E'|(? & ? & _ & E')];
          [|discriminate E'].
        by apply remove_One_raises in E'. }
    destruct He as [->|[->|[k ->]]]; simpl; discriminate.
  - apply method_bind_raised in H as [H|([] & self2 & _ & H)]; [discriminate H|].
    apply method_bind_raised in H as [H|(b & self3 & _ & H)]; [|discriminate H].
    apply add_to_dicts_raises in H as [[msg H]|[a H]]; discriminate H.
Qed.

Lemma remove_One_blocks (b : model.Block) (self : Library) (l : list model.Block) :
  list_remove b (_blocks self) = Some l ->
  _blocks (library.remove (library.One b) self).1 = l.
Proof.
  intros Hr. rewrite (remove_One_present _ _ _ Hr). by destruct b.
Qed.

(** X11: when the old block is found and its removal returns, the sequence after
    [replace] is the old sequence with [new_block] itself at the position of
    [old_block]: the block that [_add_to_dicts] registers is not what the
    sequence receives. *)
Lemma replace_sequence (old_block new_block : model.Block)
    (fail_on_duplicate_key : bool) (self : Library) (i : nat) :
  list_index old_block (_blocks self) = Some i ->
  (library.remove (library.One old_block) self).2 = Returned tt ->
  _blocks (library.replace old_block new_block fail_on_duplicate_key self).1
  = <[i := new_block]> (_blocks self).
Proof.
  intros Hi Hret.
  assert (Hin : old_block ∈ _blocks self).
  { apply dec_stable. intros Hn. apply list_index_None in Hn. congruence. }
  destruct (list_remove_is_Some _ _ Hin) as [l Hl].
  pose proof (remove_One_blocks _ _ _ Hl) as Hbl.
  unfold library.replace. rewrite replace_rec_body. unfold replace_body.
  unfold mbind, method_bind, except_ValueError, blocks_index. rewrite Hi.
  destruct (library.remove (library.One old_block) self) as [self1 [[]|e]];
    [|discriminate Hret].
  simpl in Hbl. subst l. unfold mret, method_ret, blocks_insert.
  match goal with |- context [library._add_to_dicts _ ?s] =>
    pose proof (add_to_dicts_blocks new_block s) as Hadd;
    destruct (library._add_to_dicts new_block s) as [self3 [b|e]]
  end; simpl in *; rewrite Hadd;
    exact (list_remove_insert_at old_block new_block _ _ _ Hi Hl).
Qed.

(** ** apply_middleware *)

(** X15: the blocks of the library returned by [apply_middleware] are the
    blocks of the receiver, each transformed by the last step of the chain
    alone (every step is applied to the blocks of the receiver); with an
    empty chain they are the blocks of the receiver. *)
Lemma apply_middleware_blocks (middlewares : library.middlewares_arg)
    (self : Library) :
  library.blocks (library.apply_middleware middlewares self)
  = match last (library.middlewares_as_list middlewares) with
    | Some m => (fun b => library.transform m b self) <$> library.blocks self
    | None => library.blocks self
    end.
Proof.
  unfold library.apply_middleware, library.blocks, library.__init__. simpl.
  generalize (_blocks self) at 2 4 as acc.
  induction (library.middlewares_as_list middlewares) as [|m ms IH]; intros acc;
    [reflexivity|].
  simpl foldl. rewrite IH. destruct ms as [|m' ms]; [reflexivity|].
  change (last (m :: m' :: ms)) with (last (m' :: ms)).
  destruct (last (m' :: ms)) eqn:E; [reflexivity|].
  by apply last_None in E.
Qed.

(** The constructor registers nothing: both dictionaries of the result are
    empty. *)
Lemma apply_middleware_dicts (middlewares : library.middlewares_arg)
    (self : Library) :
  library.entries_dict (library.apply_middleware middlewares self) = ∅
  /\ library.strings_dict (library.apply_middleware middlewares self) = ∅.
Proof. split; reflexivity. Qed.

(** ** The claims the code does not meet, at concrete inputs *)

Lemma lib12_eq : lib12 = mkLibrary [e1; e2] {[ "k1" := e1; "k2" := e2 ]} ∅.
Proof. vm_compute. reflexivity. Qed.

(** C1: [e2] is in the sequence and the key of [e3] is the key of [e1];
    [replace(e2, e3, fail_on_duplicate_key=True)] returns without raising,
    and the library has changed: [e3] stands where [e2] stood, the entry
    dictionary has lost ["k2"] and maps ["k1"] to a [DuplicateKeyBlock]. *)
Theorem replace_strict_collision_returns :
  let after := library.replace e2 e3 true lib12 in
  after.2 = Returned tt
  /\ library.blocks lib12 = [e1; e2]
  /\ library.blocks after.1 = [e1; e3]
  /\ library.entries_dict lib12 = {[ "k1" := e1; "k2" := e2 ]}
  /\ library.entries_dict after.1 = {[ "k1" := d13 ]}.
Proof. vm_compute. repeat split; reflexivity. Qed.

(** C2: with the chain [rename_to_x, retype_to_misc] every block of the
    result is the second step applied to the original block, not to the
    output of the first step: the renaming is lost. *)
Theorem apply_middleware_chain_keeps_last_step_only :
  let chain := library.ManyMiddlewares [rename_to_x; retype_to_misc] in
  let result := library.apply_middleware chain lib12 in
  library.blocks result
  = [model.Entry (Some 1%Z) "@article{k1}" "k1" "misc" [];
     model.Entry (Some 2%Z) "@article{k2}" "k2" "misc" []]
  /\ library.blocks result
     = (fun b => library.transform retype_to_misc b lib12) <$> library.blocks lib12
  /\ library.blocks result
     <> (fun b => library.transform retype_to_misc
                   (library.transform rename_to_x b lib12) lib12)
        <$> library.blocks lib12.
Proof.
  cbv zeta. split; [vm_compute; reflexivity|]. split; [vm_compute; reflexivity|].
  vm_compute. discriminate.
Qed.

(** C3: a step renames the two entries of a library to the same key; the
    result holds both renamed entries, neither wrapped, and its entry
    dictionary is empty: no [DuplicateKeyBlock] is registered. *)
Theorem apply_middleware_registers_nothing :
  let result :=
    library.apply_middleware (library.OneMiddleware rename_to_x) lib12 in
  library.blocks result
  = [model.Entry (Some 1%Z) "@article{k1}" "x" "article" [];
     model.Entry (Some 2%Z) "@article{k2}" "x" "article" []]
  /\ library.entries_dict result = ∅
  /\ library.entries_dict result !! "x" = None.
Proof. vm_compute. repeat split; reflexivity. Qed.

(** C4: a third [Entry] with a key that has collided once: [add] raises
    [AssertionError]; the block is not appended and the entry dictionary is
    left holding it in place of the [DuplicateKeyBlock]. *)
Theorem add_third_entry_raises :
  let third := model.Entry (Some 9%Z) "@misc{k1}" "k1" "misc" [] in
  let before := (library.add (library.Many [e1; e3]) (library.__init__ None)).1 in
  let after := library.add (library.One third) before in
  library.entries_dict before !! "k1" = Some d13
  /\ after.2 = Raised (AssertionError
       "Internal BibtexParser Error. Duplicate blocks share no common type.")
  /\ library.blocks after.1 = [e1; d13]
  /\ library.entries_dict after.1 !! "k1" = Some third.
Proof. vm_compute. repeat split; reflexivity. Qed.

(** C5: after [replace(e2, e3, fail_on_duplicate_key=False)] the entry
    dictionary maps ["k1"] to a [DuplicateKeyBlock] that is nowhere in the
    sequence; the sequence holds [e3] itself. *)
Theorem replace_leaves_entry_value_outside_sequence :
  let after := library.replace e2 e3 false lib12 in
  after.2 = Returned tt
  /\ library.entries_dict after.1 !! "k1" = Some d13
  /\ library.blocks after.1 = [e1; e3]
  /\ d13 ∉ library.blocks after.1.
Proof.
  assert (H : library.blocks (library.replace e2 e3 false lib12).1 = [e1; e3])
    by (vm_compute; reflexivity).
  cbv zeta. rewrite H. repeat split; try (vm_compute; reflexivity).
  intros Hin.
  repeat (apply elem_of_cons in Hin as [Hin|Hin]; [discriminate Hin|]).
  by apply not_elem_of_nil in Hin.
Qed.

(** * Further properties of the library *)

(** ** _cast_to_duplicate *)

Lemma BlockType_eqb_eq (s t : model.BlockType) :
  model.BlockType_eqb s t = true <-> s = t.
Proof. destruct s, t; simpl; split; congruence. Qed.

Lemma cast_to_duplicate_inv (prev duplicate d : model.Block) :
  library._cast_to_duplicate prev duplicate = Returned d ->
  model.type prev = model.type duplicate
  /\ exists k, model.key prev = Some k /\ model.key duplicate = Some k
       /\ d = model.DuplicateKeyBlock (model.start_line duplicate)
                (model.raw duplicate) k prev duplicate.
Proof.
  unfold library._cast_to_duplicate, getattr_key, model.isinstance.
  destruct (model.BlockType_eqb (model.type prev) (model.type duplicate)) eqn:Ht.
  - apply BlockType_eqb_eq in Ht. simpl.
    destruct (model.key prev) as [kp|]; [|discriminate].
    destruct (model.key duplicate) as [kd|]; [|discriminate]. simpl.
    destruct (bool_decide (kp = kd)) eqn:Hk; [|discriminate].
    apply bool_decide_eq_true_1 in Hk as ->. intros [= <-]. eauto.
  - destruct (model.BlockType_eqb (model.type duplicate) (model.type prev)) eqn:Ht'.
    + apply BlockType_eqb_eq in Ht'. rewrite Ht' in Ht.
      assert (model.BlockType_eqb (model.type prev) (model.type prev) = true)
        by (by apply BlockType_eqb_eq). congruence.
    + discriminate.
Qed.

Lemma cast_to_duplicate_same (prev duplicate : model.Block) (k : string) :
  model.type prev = model.type duplicate ->
  model.key prev = Some k -> model.key duplicate = Some k ->
  library._cast_to_duplicate prev duplicate
  = Returned (model.DuplicateKeyBlock (model.start_line duplicate)
                (model.raw duplicate) k prev duplicate).
Proof.
  intros Ht Hp Hd.
  unfold library._cast_to_duplicate, getattr_key, model.isinstance.
  rewrite Ht, Hp, Hd.
  assert (model.BlockType_eqb (model.type duplicate) (model.type duplicate) = true)
    as -> by (by apply BlockType_eqb_eq).
  simpl. by rewrite bool_decide_eq_true_2.
Qed.

(** X1: [_cast_to_duplicate] returns exactly when the two blocks are of the
    same class and carry the same key, and then it returns the
    [DuplicateKeyBlock] that takes line, text and key from the duplicate and
    wraps the previous block and the duplicate. *)
Theorem cast_to_duplicate_returns_iff (prev duplicate d : model.Block) :
  library._cast_to_duplicate prev duplicate = Returned d
  <-> model.type prev = model.type duplicate
      /\ exists k, model.key prev = Some k /\ model.key duplicate = Some k
           /\ d = model.DuplicateKeyBlock (model.start_line duplicate)
                    (model.raw duplicate) k prev duplicate.
Proof.
  split; [apply cast_to_duplicate_inv|].
  intros (Ht & k & Hp & Hd & ->). by apply cast_to_duplicate_same.
Qed.

(** ** The single step of add *)

Lemma try_cast_spec (by_key : gmap string model.Block) (b : model.Block)
    (k : string) :
  model.key b = Some k ->
  library.try_cast by_key b
  = match by_key !! k with
    | None => (b, None)
    | Some prev =>
        match library._cast_to_duplicate prev b with
        | Returned d => (d, None)
        | Raised e => (b, Some e)
        end
    end.
Proof.
  intros Hk. unfold library.try_cast, getattr_key, dict_getitem. rewrite Hk. simpl.
  destruct (by_key !! k) as [prev|]; simpl; [|reflexivity].
  destruct (library._cast_to_duplicate prev b) as [d|e] eqn:Hc; [reflexivity|].
  apply cast_to_duplicate_raises in Hc as [[msg ->]|[a ->]]; reflexivity.
Qed.

(** What [_add_to_dicts] does with an [Entry], in full. *)
Lemma add_to_dicts_Entry (self : Library) s r k t f :
  let b := model.Entry s r k t f in
  library._add_to_dicts b self
  = match _entries_by_key self !! k with
    | None =>
        (mkLibrary (_blocks self) (<[k := b]> (_entries_by_key self))
           (_strings_by_key self), Returned b)
    | Some prev =>
        match library._cast_to_duplicate prev b with
        | Returned d =>
            (mkLibrary (_blocks self) (<[k := d]> (_entries_by_key self))
               (_strings_by_key self), Returned d)
        | Raised e =>
            (mkLibrary (_blocks self) (<[k := b]> (_entries_by_key self))
               (_strings_by_key self), Raised e)
        end
    end.
Proof.
  intros b. unfold library._add_to_dicts. simpl. unfold_method.
  rewrite (try_cast_spec _ b k eq_refl).
  destruct (_entries_by_key self !! k) as [prev|]; [|reflexivity].
  destruct (library._cast_to_duplicate prev b) as [d|e] eqn:Hc; [|reflexivity].
  apply cast_to_duplicate_inv in Hc as (_ & k' & _ & [= <-] & ->). reflexivity.
Qed.

(** What [_add_to_dicts] does with a [String], in full. *)
Lemma add_to_dicts_String (self : Library) s r k v :
  let b := model.String s r k v in
  library._add_to_dicts b self
  = match _strings_by_key self !! k with
    | None =>
        (mkLibrary (_blocks self) (_entries_by_key self)
           (<[k := b]> (_strings_by_key self)), Returned b)
    | Some prev =>
        match library._cast_to_duplicate prev b with
        | Returned d =>
            (mkLibrary (_blocks self) (_entries_by_key self)
               (<[k := d]> (_strings_by_key self)), Returned d)
        | Raised e =>
            (mkLibrary (_blocks self) (_entries_by_key self)
               (<[k := b]> (_strings_by_key self)), Raised e)
        end
    end.
Proof.
  intros b. unfold library._add_to_dicts. simpl. unfold_method.
  rewrite (try_cast_spec _ b k eq_refl).
  destruct (_strings_by_key self !! k) as [prev|]; [|reflexivity].
  destruct (library._cast_to_duplicate prev b) as [d|e] eqn:Hc; [|reflexivity].
  apply cast_to_duplicate_inv in Hc as (_ & k' & _ & [= <-] & ->). reflexivity.
Qed.

(** ** add: fresh keys, blocks without a key, batches *)

(** X2: adding an [Entry] or a [String] whose key is free in the dictionary
    of its class returns, appends that very block to the sequence and files
    it under its key; the other dictionary is untouched.  A block of any
    other class is appended and both dictionaries are untouched. *)
Theorem add_free_key_registers_block (self : Library) (b : model.Block) :
  key_free b self ->
  let after := library.add (library.One b) self in
  after.2 = Returned tt
  /\ library.blocks after.1 = library.blocks self ++ [b]
  /\ match b with
     | model.Entry _ _ k _ _ =>
         library.entries_dict after.1 = <[k := b]> (library.entries_dict self)
         /\ library.entries_dict after.1 !! k = Some b
         /\ library.strings_dict after.1 = library.strings_dict self
     | model.String _ _ k _ =>
         library.strings_dict after.1 = <[k := b]> (library.strings_dict self)
         /\ library.strings_dict after.1 !! k = Some b
         /\ library.entries_dict after.1 = library.entries_dict self
     | _ =>
         library.entries_dict after.1 = library.entries_dict self
         /\ library.strings_dict after.1 = library.strings_dict self
     end.
Proof.
  intros Hfree after. subst after. rewrite add_One.
  unfold library.blocks, library.entries_dict, library.strings_dict.
  destruct b; simpl in Hfree;
    rewrite ?add_to_dicts_Entry, ?add_to_dicts_String, ?Hfree;
    rewrite ?add_to_dicts_unkeyed by reflexivity; simpl;
    rewrite ?lookup_insert_eq; auto.
Qed.

Lemma add_free_key_registers_block_witness :
  let s := model.String (Some 4%Z) "@string{k1}" "k1" "Journal" in
  let after := library.add (library.One s) lib12 in
  key_free s lib12
  /\ after.2 = Returned tt
  /\ library.blocks after.1 = library.blocks lib12 ++ [s]
  /\ library.strings_dict after.1 !! "k1" = Some s
  /\ library.entries_dict after.1 = library.entries_dict lib12.
Proof.
  intros s after.
  assert (Hfree : key_free s lib12) by reflexivity.
  destruct (add_free_key_registers_block lib12 s Hfree) as (Hr & Hb & _ & Hs & He).
  auto.
Defined.

(** X3: when the string dictionary maps [k] to a [String] with key [k],
    adding a second [String] with key [k] returns, maps [k] to the
    [DuplicateKeyBlock] of the two, appends that [DuplicateKeyBlock] and
    leaves the entry dictionary untouched, also when the entry dictionary
    has an entry under the same key. *)
Theorem add_second_string_registers_duplicate (self : Library) (k : string)
    s1 r1 v1 s2 r2 v2 :
  let first := model.String s1 r1 k v1 in
  let second := model.String s2 r2 k v2 in
  library.strings_dict self !! k = Some first ->
  let dup := model.DuplicateKeyBlock s2 r2 k first second in
  library.add (library.One second) self
  = (mkLibrary (library.blocks self ++ [dup]) (library.entries_dict self)
       (<[k := dup]> (library.strings_dict self)), Returned tt).
Proof.
  intros first second Hk dup. rewrite add_One.
  subst first second. rewrite add_to_dicts_String.
  unfold library.strings_dict in Hk. rewrite Hk.
  rewrite (cast_to_duplicate_same _ _ k) by reflexivity. reflexivity.
Qed.

Lemma add_second_string_registers_duplicate_witness :
  let first := model.String (Some 4%Z) "@string{k1}" "k1" "Journal" in
  let second := model.String (Some 5%Z) "@string{k1}" "k1" "Proceedings" in
  let self := mkLibrary [e1; first] {[ "k1" := e1 ]} {[ "k1" := first ]} in
  let dup := model.DuplicateKeyBlock (Some 5%Z) "@string{k1}" "k1" first second in
  library.add (library.One second) self
  = (mkLibrary ([e1; first] ++ [dup]) {[ "k1" := e1 ]}
       (<[ "k1" := dup ]> {[ "k1" := first ]}), Returned tt).
Proof.
  exact (add_second_string_registers_duplicate
           (mkLibrary [e1; model.String (Some 4%Z) "@string{k1}" "k1" "Journal"]
              {[ "k1" := e1 ]}
              {[ "k1" := model.String (Some 4%Z) "@string{k1}" "k1" "Journal" ]})
           "k1" (Some 4%Z) "@string{k1}" "Journal"
           (Some 5%Z) "@string{k1}" "Proceedings" eq_refl).
Defined.

Lemma add_to_dicts_strings_frame (b : model.Block) (self : Library) :
  model.isinstance b model.TString = false ->
  _strings_by_key (library._add_to_dicts b self).1 = _strings_by_key self.
Proof.
  intros Hb. destruct b; try discriminate Hb;
    rewrite ?add_to_dicts_Entry; rewrite ?add_to_dicts_unkeyed by reflexivity;
    try reflexivity.
  destruct (_ !! _); [destruct (library._cast_to_duplicate _ _)|]; reflexivity.
Qed.

Lemma add_to_dicts_entries_frame (b : model.Block) (self : Library) :
  model.isinstance b model.TEntry = false ->
  _entries_by_key (library._add_to_dicts b self).1 = _entries_by_key self.
Proof.
  intros Hb. destruct b; try discriminate Hb;
    rewrite ?add_to_dicts_String; rewrite ?add_to_dicts_unkeyed by reflexivity;
    try reflexivity.
  destruct (_ !! _); [destruct (library._cast_to_duplicate _ _)|]; reflexivity.
Qed.

(** X5: an [add] call never touches the string dictionary when none of its
    blocks is a [String], and never touches the entry dictionary when none
    of its blocks is an [Entry], whether the call returns or raises. *)
Theorem add_keeps_other_dict (blocks : library.blocks_arg) (self : Library) :
  (Forall (fun b => model.isinstance b model.TString = false)
          (library.as_list blocks) ->
   library.strings_dict (library.add blocks self).1 = library.strings_dict self)
  /\ (Forall (fun b => model.isinstance b model.TEntry = false)
             (library.as_list blocks) ->
      library.entries_dict (library.add blocks self).1 = library.entries_dict self).
Proof.
  rewrite add_as_Many. generalize (library.as_list blocks) as bs. clear blocks.
  unfold library.strings_dict, library.entries_dict.
  intros bs. revert self.
  induction bs as [|b bs IH]; intros self; [split; reflexivity|].
  rewrite add_Many_cons.
  pose proof (add_to_dicts_strings_frame b self) as HS.
  pose proof (add_to_dicts_entries_frame b self) as HE.
  destruct (library._add_to_dicts b self) as [self' [r|e]]; simpl in *.
  - split; intros Hall; apply Forall_cons in Hall as [Hb Hbs].
    + rewrite (proj1 (IH _) Hbs). simpl. auto.
    + rewrite (proj2 (IH _) Hbs). simpl. auto.
  - split; intros Hall; apply Forall_cons in Hall as [Hb Hbs]; auto.
Qed.

Lemma add_keeps_other_dict_witness :
  library.strings_dict (library.add (library.Many [e3; e2]) lib12).1
  = library.strings_dict lib12.
Proof.
  apply (add_keeps_other_dict (library.Many [e3; e2]) lib12).
  repeat constructor.
Defined.

(** X6: adding a list of blocks is adding its first part and then, when that
    returned, its second part; when the first part raises, the second part
    is not looked at and what the first part had added stays. *)
Theorem add_Many_app (l1 l2 : list model.Block) (self : Library) :
  library.add (library.Many (l1 ++ l2)) self
  = match library.add (library.Many l1) self with
    | (self', Returned _) => library.add (library.Many l2) self'
    | (self', Raised e) => (self', Raised e)
    end.
Proof.
  revert self. induction l1 as [|b l1 IH]; intros self; [reflexivity|].
  simpl app. rewrite !add_Many_cons.
  destruct (library._add_to_dicts b self) as [self' [r|e]]; [apply IH | reflexivity].
Qed.

(** ** Properties kept by the methods *)

Lemma preserves_ret {A : Type} (P : Library -> Prop) (a : A) : preserves P (mret a).
Proof. intros self H. exact H. Qed.

Lemma preserves_raise {A : Type} (P : Library -> Prop) (e : exn) :
  preserves P (raise (A := A) e).
Proof. intros self H. exact H. Qed.

Lemma preserves_lift {A : Type} (P : Library -> Prop) (o : outcome A) :
  preserves P (lift o).
Proof. intros self H. exact H. Qed.

Lemma preserves_bind {A B : Type} (P : Library -> Prop) (m : method A)
    (f : A -> method B) :
  preserves P m -> (forall a, preserves P (f a)) -> preserves P (m ≫= f).
Proof.
  intros Hm Hf self H. unfold mbind, method_bind.
  specialize (Hm self H). destruct (m self) as [self' [a|e]]; simpl in *.
  - by apply Hf.
  - exact Hm.
Qed.

Lemma preserves_except {A : Type} (P : Library -> Prop) (body handler : method A) :
  preserves P body -> preserves P handler ->
  preserves P (except_ValueError body handler).
Proof.
  intros Hb Hh self H. unfold except_ValueError.
  specialize (Hb self H). destruct (body self) as [self' [a|[]]]; simpl in *;
    try exact Hb. by apply Hh.
Qed.

Lemma preserves_for_each {A : Type} (P : Library -> Prop) (body : A -> method unit)
    (l : list A) :
  (forall x, x ∈ l -> preserves P (body x)) -> preserves P (for_each body l).
Proof.
  induction l as [|x l IH]; intros Hbody; simpl.
  - apply preserves_ret.
  - apply preserves_bind.
    + apply Hbody. left.
    + intros _. apply IH. intros y Hy. apply Hbody. by right.
Qed.

Lemma preserves_replace (P : Library -> Prop) (old_block new_block : model.Block)
    (fail_on_duplicate_key : bool) :
  (forall blocks, preserves P (library.remove blocks)) ->
  (forall i b, preserves P (blocks_insert i b)) ->
  (forall b, preserves P (library._add_to_dicts b)) ->
  preserves P (library.replace old_block new_block fail_on_duplicate_key).
Proof.
  intros Hrm Hins Hadd self H. unfold library.replace.
  rewrite replace_rec_body. revert self H.
  apply preserves_bind.
  - apply preserves_except; [|apply preserves_raise].
    apply preserves_bind; [intros self H; unfold blocks_index;
                           by destruct (list_index _ _)|].
    intros i. apply preserves_bind; [apply Hrm|]. intros _. apply preserves_ret.
  - intros i. apply preserves_bind; [apply Hins|]. intros _.
    apply preserves_bind; [apply Hadd|]. intros _. apply preserves_ret.
Qed.

(** *** The dictionaries stay well formed *)

Lemma filed_ok_insert (t : model.BlockType) (d : gmap string model.Block)
    (k : string) (v : model.Block) :
  filed_ok t k v ->
  (forall k' v', d !! k' = Some v' -> filed_ok t k' v') ->
  forall k' v', <[k := v]> d !! k' = Some v' -> filed_ok t k' v'.
Proof.
  intros Hv Hd k' v'. rewrite lookup_insert. case_decide as Hk.
  - subst k'. by intros [= <-].
  - apply Hd.
Qed.

Lemma filed_ok_delete (t : model.BlockType) (d : gmap string model.Block)
    (k : string) :
  (forall k' v', d !! k' = Some v' -> filed_ok t k' v') ->
  forall k' v', delete k d !! k' = Some v' -> filed_ok t k' v'.
Proof.
  intros Hd k' v'. rewrite lookup_delete. case_decide; [done | apply Hd].
Qed.

(** Under a well-formed dictionary the cast of the previous value and a
    new block of the dictionary's class gives a value that may be filed. *)
Lemma filed_ok_cast (t : model.BlockType) (k : string) (prev b d : model.Block) :
  filed_ok t k prev -> model.type b = t -> model.key b = Some k ->
  library._cast_to_duplicate prev b = Returned d -> filed_ok t k d.
Proof.
  intros Hprev Ht Hk Hc.
  apply cast_to_duplicate_inv in Hc as (Htp & k' & Hkp & Hkb & ->).
  assert (k' = k) as -> by congruence.
  right. exists prev, b. repeat split; congruence.
Qed.

Lemma add_to_dicts_well_formed (b : model.Block) :
  preserves dicts_well_formed (library._add_to_dicts b).
Proof.
  intros self [HE HS].
  destruct b as [s r k t f|s r k v| | | | |];
    rewrite ?add_to_dicts_Entry, ?add_to_dicts_String;
    rewrite ?add_to_dicts_unkeyed by reflexivity; try (by split).
  - destruct (_entries_by_key self !! k) as [prev|] eqn:Hk;
      [destruct (library._cast_to_duplicate prev _) as [d|e] eqn:Hc|];
      (split; [|exact HS]); simpl; apply filed_ok_insert; try exact HE;
      try (left; by split).
    exact (filed_ok_cast model.TEntry k prev (model.Entry s r k t f) d
             (HE k prev Hk) eq_refl eq_refl Hc).
  - destruct (_strings_by_key self !! k) as [prev|] eqn:Hk;
      [destruct (library._cast_to_duplicate prev _) as [d|e] eqn:Hc|];
      (split; [exact HE|]); simpl; apply filed_ok_insert; try exact HS;
      try (left; by split).
    exact (filed_ok_cast model.TString k prev (model.String s r k v) d
             (HS k prev Hk) eq_refl eq_refl Hc).
Qed.

Lemma add_well_formed (blocks : library.blocks_arg) :
  preserves dicts_well_formed (library.add blocks).
Proof.
  apply preserves_for_each. intros b _. apply preserves_bind.
  - apply add_to_dicts_well_formed.
  - intros r self H. exact H.
Qed.

Lemma remove_well_formed (blocks : library.blocks_arg) :
  preserves dicts_well_formed (library.remove blocks).
Proof.
  apply preserves_for_each. intros b _. apply preserves_bind.
  - intros self H. unfold blocks_remove. by destruct (list_remove _ _).
  - intros _.
    destruct (model.isinstance b model.TEntry);
      [|destruct (model.isinstance b model.TString); [|apply preserves_ret]].
    + apply preserves_bind; [apply preserves_lift|]. intros k self [HE HS].
      unfold entries_delitem. destruct (_ !! _); [|by split].
      split; [by apply filed_ok_delete | exact HS].
    + apply preserves_bind; [apply preserves_lift|]. intros k self [HE HS].
      unfold strings_delitem. destruct (_ !! _); [|by split].
      split; [exact HE | by apply filed_ok_delete].
Qed.

Lemma run_call_well_formed (c : call) : preserves dicts_well_formed (run_call c).
Proof.
  destruct c; simpl.
  - apply add_well_formed.
  - apply remove_well_formed.
  - apply preserves_replace.
    + apply remove_well_formed.
    + intros i b self H. exact H.
    + apply add_to_dicts_well_formed.
Qed.

(** X16: in every library reached from a constructed one by any sequence of
    [add], [remove] and [replace] calls, returning or raising, each value of
    the entry dictionary is an [Entry] carrying the key it is filed under,
    or the [DuplicateKeyBlock] of two such entries; and likewise for the
    string dictionary. *)
Theorem dicts_stay_well_formed (blocks : option (list model.Block))
    (calls : list call) :
  dicts_well_formed (run_calls calls (library.__init__ blocks)).
Proof.
  assert (H0 : dicts_well_formed (library.__init__ blocks)).
  { split; intros k v; simpl; by rewrite lookup_empty. }
  revert H0. generalize (library.__init__ blocks) as self.
  induction calls as [|c calls IH]; intros self H; simpl; [exact H|].
  apply IH. by apply run_call_well_formed.
Qed.

(** *** The values of the dictionaries and the sequence *)

Lemma filed_ok_key (t : model.BlockType) (k : string) (v : model.Block) :
  filed_ok t k v -> model.key v = Some k.
Proof. intros [[_ H]|(p & d & -> & _)]; [exact H | reflexivity]. Qed.

Lemma filed_ok_type (t : model.BlockType) (k : string) (v : model.Block) :
  filed_ok t k v -> model.type v = t \/ model.type v = model.TDuplicateKeyBlock.
Proof. intros [[H _]|(p & d & -> & _)]; [by left | by right]. Qed.

(** When [_add_to_dicts] returns [r], the sequence is as before and each
    dictionary is as before or has [r] under one more key. *)
Lemma add_to_dicts_Returned_dicts (b r : model.Block) (self self' : Library) :
  library._add_to_dicts b self = (self', Returned r) ->
  _blocks self' = _blocks self
  /\ (forall k v, _entries_by_key self' !! k = Some v ->
        v = r \/ _entries_by_key self !! k = Some v)
  /\ (forall k v, _strings_by_key self' !! k = Some v ->
        v = r \/ _strings_by_key self !! k = Some v).
Proof.
  assert (Hins : forall (d : gmap string model.Block) k0 k v,
            <[k0 := r]> d !! k = Some v -> v = r \/ d !! k = Some v).
  { intros d k0 k v. rewrite lookup_insert. case_decide; [intros [= <-]|]; auto. }
  destruct b as [s q k t f|s q k v0| | | | |];
    rewrite ?add_to_dicts_Entry, ?add_to_dicts_String;
    rewrite ?add_to_dicts_unkeyed by reflexivity;
    try (intros [= <- <-]; by auto).
  - destruct (_entries_by_key self !! k) as [prev|];
      [destruct (library._cast_to_duplicate prev _) as [d|e]|];
      intros [= <- <-]; simpl; eauto.
  - destruct (_strings_by_key self !! k) as [prev|];
      [destruct (library._cast_to_duplicate prev _) as [d|e]|];
      intros [= <- <-]; simpl; eauto.
Qed.

(** X17: when an [add] call returns and every dictionary value was in the
    sequence before the call, every dictionary value is in the sequence
    after it. *)
Theorem add_returning_keeps_values_in_sequence (blocks : library.blocks_arg)
    (self : Library) :
  values_in_sequence self ->
  (library.add blocks self).2 = Returned tt ->
  values_in_sequence (library.add blocks self).1.
Proof.
  rewrite add_as_Many. generalize (library.as_list blocks) as bs. clear blocks.
  intros bs. revert self. induction bs as [|b bs IH]; intros self Hv; [done|].
  rewrite add_Many_cons.
  pose proof (add_to_dicts_Returned_dicts b) as Hd. specialize Hd with (self := self).
  destruct (library._add_to_dicts b self) as [self' [r|e]]; [|discriminate].
  destruct (Hd r self' eq_refl) as (Hb & HE & HS). apply IH.
  destruct Hv as [HvE HvS]. split; intros k v Hk; simpl in *; rewrite Hb.
  - destruct (HE k v Hk) as [->|Hold]; [apply elem_of_app; right; left|].
    apply elem_of_app. left. by apply (HvE k).
  - destruct (HS k v Hk) as [->|Hold]; [apply elem_of_app; right; left|].
    apply elem_of_app. left. by apply (HvS k).
Qed.

Lemma add_returning_keeps_values_in_sequence_witness :
  values_in_sequence (library.add (library.Many [e3; e2]) (library.__init__ (Some [e1]))).1.
Proof.
  apply (add_returning_keeps_values_in_sequence (library.Many [e3; e2])
           (library.__init__ (Some [e1]))).
  - split; intros k v; simpl; by rewrite lookup_empty.
  - vm_compute. reflexivity.
Defined.

(** X18: removing an [Entry] or a [String] from a library whose dictionaries
    are well formed and whose dictionary values are all in the sequence
    leaves every remaining dictionary value in the sequence, whether the
    call returns or raises. *)
Theorem remove_keyed_keeps_values_in_sequence (self : Library) (b : model.Block) :
  dicts_well_formed self ->
  values_in_sequence self ->
  model.type b = model.TEntry \/ model.type b = model.TString ->
  values_in_sequence (library.remove (library.One b) self).1.
Proof.
  intros [WE WS] [HE HS] Hb.
  destruct (list_remove b (_blocks self)) as [l|] eqn:Hr;
    [|rewrite (remove_One_absent _ _ Hr); by split].
  rewrite (remove_One_present _ _ _ Hr).
  pose proof (fun v => list_remove_keeps b v _ _ Hr) as Hkeep.
  destruct b as [s q k t f|s q k v0| | | | |];
    try (destruct Hb; discriminate); simpl.
  - split; intros k' v; simpl.
    + rewrite lookup_delete. case_decide as Hne; [done|]. intros Hk.
      apply Hkeep; [|by apply (HE k')].
      intros ->. apply WE, filed_ok_key in Hk. simpl in Hk. congruence.
    + intros Hk. apply Hkeep; [|by apply (HS k')].
      intros ->. apply WS, filed_ok_type in Hk as [?|?]; discriminate.
  - split; intros k' v; simpl.
    + intros Hk. apply Hkeep; [|by apply (HE k')].
      intros ->. apply WE, filed_ok_type in Hk as [?|?]; discriminate.
    + rewrite lookup_delete. case_decide as Hne; [done|]. intros Hk.
      apply Hkeep; [|by apply (HS k')].
      intros ->. apply WS, filed_ok_key in Hk. simpl in Hk. congruence.
Qed.

Lemma remove_keyed_keeps_values_in_sequence_witness :
  let self := mkLibrary [e1; d13] {[ "k1" := d13 ]} ∅ in
  values_in_sequence (library.remove (library.One e1) self).1.
Proof.
  apply (remove_keyed_keeps_values_in_sequence
           (mkLibrary [e1; d13] {[ "k1" := d13 ]} ∅) e1).
  - split; intros k v; simpl; [|by rewrite lookup_empty].
    intros [<- <-]%lookup_singleton_Some.
    right. exists e1, e3. repeat split.
  - split; intros k v; simpl; [|by rewrite lookup_empty].
    intros [<- <-]%lookup_singleton_Some. right; left.
  - left. reflexivity.
Defined.

(** *** One plain block per class and key *)

Lemma list_remove_split {A : Type} `{EqDecision A} (x : A) (l l' : list A) :
  list_remove x l = Some l' ->
  exists l1 l2, l = l1 ++ x :: l2 /\ l' = l1 ++ l2.
Proof.
  revert l'. induction l as [|y l IH]; intros l'; simpl; [done|].
  destruct (decide (y = x)) as [->|Hne].
  - intros [= <-]. by exists [], l.
  - destruct (list_remove x l) as [l''|]; [|done]. intros [= <-].
    destruct (IH l'' eq_refl) as (l1 & l2 & -> & ->).
    by exists (y :: l1), l2.
Qed.

Lemma plain_keys_app (l1 l2 : list model.Block) :
  plain_keys (l1 ++ l2) = plain_keys l1 ++ plain_keys l2.
Proof. apply omap_app. Qed.

Lemma elem_of_plain_keys (tk : model.BlockType * string) (l : list model.Block) :
  tk ∈ plain_keys l <-> exists b, b ∈ l /\ plain_key b = Some tk.
Proof. apply list_elem_of_omap. Qed.

Lemma block_mapped_mono (b : model.Block) (self self' : Library) :
  (forall k, is_Some (_entries_by_key self !! k) ->
             is_Some (_entries_by_key self' !! k)) ->
  (forall k, is_Some (_strings_by_key self !! k) ->
             is_Some (_strings_by_key self' !! k)) ->
  block_mapped b self -> block_mapped b self'.
Proof. intros HE HS. destruct b; simpl; auto. Qed.

Lemma is_Some_insert_mono (d : gmap string model.Block) (k0 k : string)
    (v : model.Block) :
  is_Some (d !! k) -> is_Some (<[k0 := v]> d !! k).
Proof. rewrite lookup_insert. case_decide; eauto. Qed.

(** A block with no plain key may be appended freely. *)
Lemma one_plain_append_unkeyed (l : list model.Block) (E S E' S' : gmap string model.Block)
    (r : model.Block) :
  plain_key r = None ->
  (forall k, is_Some (E !! k) -> is_Some (E' !! k)) ->
  (forall k, is_Some (S !! k) -> is_Some (S' !! k)) ->
  one_plain_block_per_key (mkLibrary l E S) ->
  one_plain_block_per_key (mkLibrary (l ++ [r]) E' S').
Proof.
  intros Hr HE HS [Hm Hn]. split.
  - intros b' [Hin|Hin%list_elem_of_singleton]%elem_of_app; simpl in *.
    + by apply (block_mapped_mono b' (mkLibrary l E S)); [| |apply Hm].
    + subst b'. destruct r; try discriminate Hr; exact I.
  - simpl in *. rewrite plain_keys_app. unfold plain_keys at 2. simpl.
    rewrite Hr. by rewrite app_nil_r.
Qed.

(** A plain block may be appended when its key was not mapped. *)
Lemma one_plain_append_fresh (l : list model.Block) (E S E' S' : gmap string model.Block)
    (b : model.Block) (tk : model.BlockType * string) :
  plain_key b = Some tk ->
  ~ block_mapped b (mkLibrary l E S) ->
  block_mapped b (mkLibrary (l ++ [b]) E' S') ->
  (forall k, is_Some (E !! k) -> is_Some (E' !! k)) ->
  (forall k, is_Some (S !! k) -> is_Some (S' !! k)) ->
  one_plain_block_per_key (mkLibrary l E S) ->
  one_plain_block_per_key (mkLibrary (l ++ [b]) E' S').
Proof.
  intros Hb Hfree Hnew HE HS [Hm Hn]. split.
  - intros b' [Hin|Hin%list_elem_of_singleton]%elem_of_app; simpl in *.
    + by apply (block_mapped_mono b' (mkLibrary l E S)); [| |apply Hm].
    + by subst b'.
  - simpl in *. rewrite plain_keys_app. unfold plain_keys at 2. simpl.
    rewrite Hb. apply NoDup_app. split; [exact Hn|]. split; [|apply NoDup_singleton].
    intros x Hx ->%list_elem_of_singleton.
    apply elem_of_plain_keys in Hx as (b' & Hin & Hb').
    apply Hfree. specialize (Hm b' Hin).
    destruct b, b'; simpl in *; try discriminate; congruence.
Qed.

Lemma add_One_one_plain (b : model.Block) :
  preserves one_plain_block_per_key (library.add (library.One b)).
Proof.
  intros [l E S] HJ. rewrite add_One.
  destruct b as [s q k t f|s q k v0| | | | |];
    rewrite ?add_to_dicts_Entry, ?add_to_dicts_String;
    rewrite ?add_to_dicts_unkeyed by reflexivity; simpl;
    try (by apply (one_plain_append_unkeyed l E S)).
  - destruct (E !! k) as [prev|] eqn:Hk;
      [destruct (library._cast_to_duplicate prev _) as [d|e] eqn:Hc|]; simpl.
    + apply cast_to_duplicate_inv in Hc as (_ & k' & _ & _ & ->).
      apply (one_plain_append_unkeyed l E S); auto using is_Some_insert_mono.
    + destruct HJ as [Hm Hn]. split; [|exact Hn].
      intros b' Hin. apply (block_mapped_mono b' (mkLibrary l E S));
        simpl; auto using is_Some_insert_mono.
    + eapply (one_plain_append_fresh l E S); simpl;
        eauto using is_Some_insert_mono.
      * rewrite Hk. by intros [? ?].
      * rewrite lookup_insert_eq. eauto.
  - destruct (S !! k) as [prev|] eqn:Hk;
      [destruct (library._cast_to_duplicate prev _) as [d|e] eqn:Hc|]; simpl.
    + apply cast_to_duplicate_inv in Hc as (_ & k' & _ & _ & ->).
      apply (one_plain_append_unkeyed l E S); auto using is_Some_insert_mono.
    + destruct HJ as [Hm Hn]. split; [|exact Hn].
      intros b' Hin. apply (block_mapped_mono b' (mkLibrary l E S));
        simpl; auto using is_Some_insert_mono.
    + eapply (one_plain_append_fresh l E S); simpl;
        eauto using is_Some_insert_mono.
      * rewrite Hk. by intros [? ?].
      * rewrite lookup_insert_eq. eauto.
Qed.

Lemma NoDup_app_remove_middle {A : Type} (l1 l2 : list A) (x : A) :
  NoDup (l1 ++ x :: l2) -> NoDup (l1 ++ l2) /\ x ∉ l1 ++ l2.
Proof.
  intros Hn. apply NoDup_app in Hn as (Hn1 & Hdis & Hn2).
  apply NoDup_cons in Hn2 as [Hx Hn2]. split.
  - apply NoDup_app. split; [exact Hn1|]. split; [|exact Hn2].
    intros y Hy Hy2. apply (Hdis y Hy). by right.
  - intros [Hin|Hin]%elem_of_app; [|done]. apply (Hdis x Hin). left.
Qed.

Lemma plain_keys_unkeyed_middle (l1 l2 : list model.Block) (b : model.Block) :
  plain_key b = None -> plain_keys (l1 ++ b :: l2) = plain_keys (l1 ++ l2).
Proof.
  intros Hb. rewrite !plain_keys_app. f_equal.
  unfold plain_keys. simpl. by rewrite Hb.
Qed.

Lemma plain_keys_keyed_middle (l1 l2 : list model.Block) (b : model.Block)
    (tk : model.BlockType * string) :
  plain_key b = Some tk ->
  plain_keys (l1 ++ b :: l2) = plain_keys l1 ++ tk :: plain_keys l2.
Proof.
  intros Hb. rewrite !plain_keys_app. f_equal.
  unfold plain_keys. simpl. by rewrite Hb.
Qed.

Lemma one_plain_remove_unkeyed (l1 l2 : list model.Block)
    (E S : gmap string model.Block) (b : model.Block) :
  plain_key b = None ->
  one_plain_block_per_key (mkLibrary (l1 ++ b :: l2) E S) ->
  one_plain_block_per_key (mkLibrary (l1 ++ l2) E S).
Proof.
  intros Hb [Hm Hn]. simpl in *. split; simpl.
  - intros b' Hin.
    apply (block_mapped_mono b' (mkLibrary (l1 ++ b :: l2) E S)); auto.
    apply Hm. simpl.
    apply elem_of_app in Hin as [?|?]; apply elem_of_app; [by left|by right; right].
  - by rewrite (plain_keys_unkeyed_middle _ _ _ Hb) in Hn.
Qed.

Lemma one_plain_remove_keyed (l1 l2 : list model.Block)
    (E S E' S' : gmap string model.Block) (b : model.Block)
    (tk : model.BlockType * string) :
  plain_key b = Some tk ->
  (forall b', plain_key b' <> Some tk ->
     block_mapped b' (mkLibrary (l1 ++ b :: l2) E S) ->
     block_mapped b' (mkLibrary (l1 ++ l2) E' S')) ->
  one_plain_block_per_key (mkLibrary (l1 ++ b :: l2) E S) ->
  one_plain_block_per_key (mkLibrary (l1 ++ l2) E' S').
Proof.
  intros Hb Hmono [Hm Hn]. simpl in *.
  rewrite (plain_keys_keyed_middle _ _ _ _ Hb) in Hn.
  apply NoDup_app_remove_middle in Hn as [Hn Hnotin].
  rewrite <- plain_keys_app in Hn, Hnotin.
  split; simpl; [|exact Hn].
  intros b' Hin. apply Hmono.
  - intros Hb'. apply Hnotin. apply elem_of_plain_keys. eauto.
  - apply Hm. simpl.
    apply elem_of_app in Hin as [?|?]; apply elem_of_app; [by left|by right; right].
Qed.

Lemma remove_One_one_plain (b : model.Block) :
  preserves one_plain_block_per_key (library.remove (library.One b)).
Proof.
  intros [l0 E S] HJ.
  destruct (list_remove b l0) as [l|] eqn:Hr;
    [|by rewrite (remove_One_absent b (mkLibrary l0 E S) Hr)].
  rewrite (remove_One_present b (mkLibrary l0 E S) l Hr).
  destruct (list_remove_split _ _ _ Hr) as (l1 & l2 & -> & ->).
  destruct b as [s q k t f|s q k v0| | | | |]; simpl;
    try (by apply (one_plain_remove_unkeyed l1 l2 E S) in HJ).
  - apply (one_plain_remove_keyed l1 l2 E S _ _ (model.Entry s q k t f)
             (model.TEntry, k) eq_refl); [|exact HJ].
    intros b' Hne. destruct b'; simpl; auto.
    rewrite lookup_delete. case_decide as Hk; [subst; by destruct Hne | auto].
  - apply (one_plain_remove_keyed l1 l2 E S _ _ (model.String s q k v0)
             (model.TString, k) eq_refl); [|exact HJ].
    intros b' Hne. destruct b'; simpl; auto.
    rewrite lookup_delete. case_decide as Hk; [subst; by destruct Hne | auto].
Qed.

Lemma add_preserves_from_One (P : Library -> Prop) (blocks : library.blocks_arg) :
  (forall b, preserves P (library.add (library.One b))) ->
  preserves P (library.add blocks).
Proof.
  intros H. apply preserves_for_each. intros b _ self HP.
  specialize (H b self HP). unfold library.add, library.as_list in H.
  by rewrite for_each_one in H.
Qed.

Lemma remove_preserves_from_One (P : Library -> Prop) (blocks : library.blocks_arg) :
  (forall b, preserves P (library.remove (library.One b))) ->
  preserves P (library.remove blocks).
Proof.
  intros H. apply preserves_for_each. intros b _ self HP.
  specialize (H b self HP). unfold library.remove, library.as_list in H.
  by rewrite for_each_one in H.
Qed.

(** X19: in every library reached from an empty one by [add] and [remove]
    calls, returning or raising, no two blocks of the sequence are entries
    with the same key, or strings with the same key, and every entry and
    every string of the sequence has its key mapped in its dictionary. *)
Theorem add_remove_keep_one_plain_block_per_key (calls : list call) :
  Forall (fun c => is_replace c = false) calls ->
  let final := run_calls calls (library.__init__ None) in
  NoDup (plain_keys (library.blocks final))
  /\ keyed_blocks_mapped final.
Proof.
  intros Hcalls final. subst final.
  cut (one_plain_block_per_key (run_calls calls (library.__init__ None))).
  { intros [Hm Hn]. by split. }
  assert (H0 : one_plain_block_per_key (library.__init__ None)).
  { split; simpl; [|constructor]. intros b Hb. by apply not_elem_of_nil in Hb. }
  revert H0. generalize (library.__init__ None) as self.
  induction Hcalls as [|c calls Hc _ IH]; intros self H; simpl; [exact H|].
  apply IH. destruct c; simpl in *; [| |discriminate Hc].
  - revert self H. apply add_preserves_from_One, add_One_one_plain.
  - revert self H. apply remove_preserves_from_One, remove_One_one_plain.
Qed.

Lemma add_remove_keep_one_plain_block_per_key_witness :
  let calls := [CallAdd (library.Many [e1; e3; e2]);
                CallRemove (library.One e1);
                CallAdd (library.One e3)] in
  let final := run_calls calls (library.__init__ None) in
  NoDup (plain_keys (library.blocks final))
  /\ keyed_blocks_mapped final.
Proof.
  apply (add_remove_keep_one_plain_block_per_key
           [CallAdd (library.Many [e1; e3; e2]);
            CallRemove (library.One e1);
            CallAdd (library.One e3)]).
  repeat constructor.
Defined.

(** ** replace: further behaviour *)

(** X10: [replace] with an old block that is not in the sequence raises
    [ValueError] with the message of [replace], whatever the flag, and
    leaves the library as it was. *)
Theorem replace_absent_raises_unchanged (old_block new_block : model.Block)
    (fail_on_duplicate_key : bool) (self : Library) :
  old_block ∉ library.blocks self ->
  library.replace old_block new_block fail_on_duplicate_key self
  = (self, Raised (ValueError "Block to replace is not in library.")).
Proof.
  intros Hout. apply list_index_None in Hout.
  unfold library.replace. rewrite replace_rec_body. unfold replace_body.
  unfold mbind, method_bind, except_ValueError, blocks_index.
  unfold library.blocks in Hout. by rewrite Hout.
Qed.

Lemma replace_absent_raises_unchanged_witness :
  (e3 ∉ library.blocks lib12)
  /\ library.replace e3 e1 true lib12
     = (lib12, Raised (ValueError "Block to replace is not in library.")).
Proof.
  assert (H : e3 ∉ library.blocks lib12).
  { vm_compute. intros Hin.
    repeat (apply elem_of_cons in Hin as [Hin|Hin]; [discriminate Hin|]).
    by apply not_elem_of_nil in Hin. }
  split; [exact H|].
  exact (replace_absent_raises_unchanged e3 e1 true lib12 H).
Defined.

(** X13: the flag [fail_on_duplicate_key] changes nothing: with it and
    without it [replace] leaves the same library and has the same
    outcome. *)
Theorem replace_ignores_fail_on_duplicate_key (old_block new_block : model.Block)
    (self : Library) :
  library.replace old_block new_block true self
  = library.replace old_block new_block false self.
Proof. unfold library.replace. by rewrite !replace_rec_body. Qed.

(** X12: replacing an [Entry] that is in the sequence and whose key is mapped
    by an [Entry] that keeps the key, or takes a key that is not mapped:
    the call returns, the new entry stands at the position of the old one,
    the entry dictionary has lost the old key and maps the new key to the
    new entry, and the string dictionary is untouched. *)
Theorem replace_entry_by_entry (self : Library) (i : nat)
    so ro ko to fo sn rn kn tn fn (fail_on_duplicate_key : bool) :
  let old_block := model.Entry so ro ko to fo in
  let new_block := model.Entry sn rn kn tn fn in
  list_index old_block (library.blocks self) = Some i ->
  is_Some (library.entries_dict self !! ko) ->
  kn = ko \/ library.entries_dict self !! kn = None ->
  library.replace old_block new_block fail_on_duplicate_key self
  = (mkLibrary (<[i := new_block]> (library.blocks self))
       (<[kn := new_block]> (delete ko (library.entries_dict self)))
       (library.strings_dict self),
     Returned tt).
Proof.
  intros old_block new_block Hi [v Hko] Hkn.
  unfold library.blocks, library.entries_dict, library.strings_dict in *.
  assert (Hin : old_block ∈ _blocks self).
  { apply dec_stable. intros Hn. apply list_index_None in Hn. congruence. }
  destruct (list_remove_is_Some _ _ Hin) as [l Hl].
  assert (Hfree : delete ko (_entries_by_key self) !! kn = None).
  { rewrite lookup_delete. case_decide; [done|]. by destruct Hkn. }
  unfold library.replace. rewrite replace_rec_body. unfold replace_body.
  unfold mbind, method_bind, except_ValueError, blocks_index. rewrite Hi.
  rewrite (remove_One_present old_block self l Hl). subst old_block. simpl.
  rewrite Hko. unfold mret, method_ret, blocks_insert. simpl.
  subst new_block. rewrite add_to_dicts_Entry. simpl. rewrite Hfree.
  by rewrite (list_remove_insert_at _ _ _ _ _ Hi Hl).
Qed.

Lemma replace_entry_by_entry_witness :
  let renamed := model.Entry (Some 2%Z) "@article{k9}" "k9" "article" [] in
  library.replace e2 renamed true lib12
  = (mkLibrary (<[1 := renamed]> (library.blocks lib12))
       (<[ "k9" := renamed ]> (delete "k2" (library.entries_dict lib12)))
       (library.strings_dict lib12),
     Returned tt).
Proof.
  apply (replace_entry_by_entry lib12 1 (Some 2%Z) "@article{k2}" "k2" "article" []
           (Some 2%Z) "@article{k9}" "k9" "article" [] true).
  - reflexivity.
  - exists e2. reflexivity.
  - right. reflexivity.
Defined.

(** ** remove: batches and round trips *)

Lemma remove_Many_cons (b : model.Block) (bs : list model.Block) (self : Library) :
  library.remove (library.Many (b :: bs)) self
  = match library.remove (library.One b) self with
    | (self', Returned _) => library.remove (library.Many bs) self'
    | (self', Raised e) => (self', Raised e)
    end.
Proof.
  unfold library.remove at 2. unfold library.as_list. rewrite for_each_one.
  unfold library.remove, library.as_list. simpl for_each.
  unfold mbind at 1. unfold method_bind at 1.
  match goal with |- match ?x with _ => _ end = match ?y with _ => _ end =>
    change y with x; destruct x as [self' [[]|e]] end; reflexivity.
Qed.

(** X9: a [remove] call with a list stops at the first block that is not in
    the sequence: it raises [ValueError], the blocks before it stay removed
    and the blocks after it are not looked at. *)
Theorem remove_Many_stops_at_missing (l1 l2 : list model.Block) (b : model.Block)
    (self self1 : Library) :
  library.remove (library.Many l1) self = (self1, Returned tt) ->
  b ∉ library.blocks self1 ->
  library.remove (library.Many (l1 ++ b :: l2)) self
  = (self1, Raised (ValueError "list.remove(x): x not in list")).
Proof.
  revert self. induction l1 as [|a l1 IH]; intros self Hl1 Hb.
  - injection Hl1 as <-. simpl app. rewrite remove_Many_cons.
    rewrite remove_One_absent; [reflexivity|]. by apply list_remove_None.
  - simpl app. rewrite remove_Many_cons in *.
    destruct (library.remove (library.One a) self) as [self' [[]|e]];
      [by apply IH | discriminate Hl1].
Qed.

Lemma remove_Many_stops_at_missing_witness :
  library.remove (library.Many [e1; e3; e2]) lib12
  = (mkLibrary [e2] {[ "k2" := e2 ]} ∅,
     Raised (ValueError "list.remove(x): x not in list")).
Proof.
  apply (remove_Many_stops_at_missing [e1] [e2] e3 lib12
           (mkLibrary [e2] {[ "k2" := e2 ]} ∅)).
  - vm_compute. reflexivity.
  - intros Hin.
    repeat (apply elem_of_cons in Hin as [Hin|Hin]; [discriminate Hin|]).
    by apply not_elem_of_nil in Hin.
Defined.

Lemma list_remove_app_last {A : Type} `{EqDecision A} (x : A) (l : list A) :
  x ∉ l -> list_remove x (l ++ [x]) = Some l.
Proof.
  induction l as [|y l IH]; intros Hx; simpl.
  - by rewrite decide_True.
  - apply not_elem_of_cons in Hx as [Hne Hx].
    rewrite decide_False by congruence. by rewrite (IH Hx).
Qed.

(** X8: adding a block that is not in the sequence and whose key is free,
    and then removing it, gives back the library as it was: same sequence,
    same dictionaries; both calls return. *)
Theorem add_then_remove_restores (self : Library) (b : model.Block) :
  b ∉ library.blocks self ->
  key_free b self ->
  (library.add (library.One b) self).2 = Returned tt
  /\ library.remove (library.One b) (library.add (library.One b) self).1
     = (self, Returned tt).
Proof.
  intros Hb Hfree. destruct self as [l E S]. unfold library.blocks in Hb.
  simpl in Hb. pose proof (list_remove_app_last b l Hb) as Hr.
  rewrite add_One.
  destruct b as [s q k t f|s q k v0| | | | |]; simpl in Hfree;
    rewrite ?add_to_dicts_Entry, ?add_to_dicts_String;
    rewrite ?add_to_dicts_unkeyed by reflexivity; simpl; rewrite ?Hfree; simpl;
    (split; [reflexivity|]);
    match goal with |- library.remove _ ?s = _ =>
      rewrite (remove_One_present _ s l Hr) end; simpl;
    rewrite ?lookup_insert_eq, ?delete_insert_eq, ?(delete_id _ _ Hfree);
    reflexivity.
Qed.

Lemma add_then_remove_restores_witness :
  (library.add (library.One e3) (mkLibrary [e2] {[ "k2" := e2 ]} ∅)).2 = Returned tt
  /\ library.remove (library.One e3)
       (library.add (library.One e3) (mkLibrary [e2] {[ "k2" := e2 ]} ∅)).1
     = (mkLibrary [e2] {[ "k2" := e2 ]} ∅, Returned tt).
Proof.
  apply (add_then_remove_restores (mkLibrary [e2] {[ "k2" := e2 ]} ∅) e3).
  - intros Hin.
    repeat (apply elem_of_cons in Hin as [Hin|Hin]; [discriminate Hin|]).
    by apply not_elem_of_nil in Hin.
  - reflexivity.
Defined.

Lemma replace_sequence_witness :
  _blocks (library.replace e2 e3 true lib12).1 = <[1 := e3]> (_blocks lib12).
Proof.
  apply (replace_sequence e2 e3 true lib12 1).
  - reflexivity.
  - vm_compute. reflexivity.
Defined.

Lemma add_entry_on_collided_key_witness :
  let third := model.Entry (Some 9%Z) "@misc{k1}" "k1" "misc" [] in
  let self := mkLibrary [e1; d13] {[ "k1" := d13 ]} ∅ in
  library.add (library.One third) self
  = (mkLibrary [e1; d13] (<[ "k1" := third ]> {[ "k1" := d13 ]}) ∅,
     Raised (AssertionError
       "Internal BibtexParser Error. Duplicate blocks share no common type.")).
Proof.
  exact (add_entry_on_collided_key (mkLibrary [e1; d13] {[ "k1" := d13 ]} ∅)
           "k1" (Some 3%Z) "@book{k1}" e1 e3 (Some 9%Z) "@misc{k1}" "misc" []
           eq_refl).
Defined.

(** ** The filtered views *)

Lemma cast_result_is_duplicate (prev b d : model.Block) :
  library._cast_to_duplicate prev b = Returned d ->
  model.type d = model.TDuplicateKeyBlock.
Proof. intros (_ & k & _ & _ & ->)%cast_to_duplicate_inv. reflexivity. Qed.

(** The sequence after a single-block [add]: one more block, or none when
    the call raised; the block appended is the block handed in, or a
    [DuplicateKeyBlock] when that block is an [Entry] or a [String]. *)
Lemma add_One_blocks_cases (b : model.Block) (self : Library) :
  _blocks (library.add (library.One b) self).1 = _blocks self
  /\ (model.type b = model.TEntry \/ model.type b = model.TString)
  \/ exists r,
       _blocks (library.add (library.One b) self).1 = _blocks self ++ [r]
       /\ (r = b \/ model.type r = model.TDuplicateKeyBlock
                    /\ (model.type b = model.TEntry \/ model.type b = model.TString)).
Proof.
  rewrite add_One.
  destruct b as [s q k t f|s q k v0| | | | |];
    rewrite ?add_to_dicts_Entry, ?add_to_dicts_String;
    rewrite ?add_to_dicts_unkeyed by reflexivity; simpl;
    try (right; eexists; split; [reflexivity | by left]).
  - destruct (_ !! _) as [prev|];
      [destruct (library._cast_to_duplicate prev _) as [d|e] eqn:Hc|]; simpl.
    + right. exists d. split; [reflexivity|]. right.
      split; [by eapply cast_result_is_duplicate | by left].
    + left. auto.
    + right. eexists. split; [reflexivity | by left].
  - destruct (_ !! _) as [prev|];
      [destruct (library._cast_to_duplicate prev _) as [d|e] eqn:Hc|]; simpl.
    + right. exists d. split; [reflexivity|]. right.
      split; [by eapply cast_result_is_duplicate | by right].
    + left. auto.
    + right. eexists. split; [reflexivity | by left].
Qed.

Lemma filter_singleton_bool (P : model.Block -> bool) (b : model.Block) :
  filter (fun x => P x = true) [b] = if P b then [b] else [].
Proof.
  unfold filter, list_filter. case_decide as H.
  - by rewrite H.
  - by destruct (P b).
Qed.

(** X7: after [add] of a single block, returning or raising, the preambles
    are the preambles before, followed by the block when it is a
    [Preamble]; the comments are the comments before, followed by the block
    when it is an explicit or implicit comment. *)
Theorem add_extends_preambles_and_comments (b : model.Block) (self : Library) :
  let after := (library.add (library.One b) self).1 in
  library.preambles after
  = library.preambles self
    ++ (if model.isinstance b model.TPreamble then [b] else [])
  /\ library.comments after
     = library.comments self
       ++ (if model.isinstance b model.TExplicitComment
              || model.isinstance b model.TImplicitComment then [b] else []).
Proof.
  intros after. subst after. unfold library.preambles, library.comments.
  destruct (add_One_blocks_cases b self) as [[-> Hb]|(r & -> & Hr)].
  - destruct Hb as [Hb|Hb]; unfold model.isinstance; rewrite Hb; simpl;
      by rewrite !app_nil_r.
  - rewrite !filter_app.
    rewrite (filter_singleton_bool (fun x => model.isinstance x model.TPreamble)).
    rewrite (filter_singleton_bool
               (fun x => model.isinstance x model.TExplicitComment
                         || model.isinstance x model.TImplicitComment)).
    destruct Hr as [->|[Hr Hb]]; [by split|].
    destruct Hb as [Hb|Hb]; unfold model.isinstance; by rewrite Hb, Hr.
Qed.
